(** * PhishGuard detection pipeline: a shallow embedding of [src/app.py]

    The development follows the detection/scoring core of the application:
    meta-feature extraction, rule matching, the email and URL classifiers,
    the hybrid fuser and the explanation generator.

    Modelling conventions.
    - A Python [str] is a [string]; a character is a code point below 256
      (Latin-1), and the character classes of [Py] are CPython's on that
      range.
    - A Python [float] is an exact rational ([Q]); a decimal literal denotes
      its decimal value; numbers are compared with [==], [<] and [<=] of [Q].
      The sums met in the examples compare the same way in binary64:
      0.85 + 0.05 equals the literal 0.9, 0.2 + 0.25 exceeds 0.4, and
      0.6 + 0.45 exceeds 1.
    - [int(x)] and [float(x)] of a count stored in the feature array keep
      its value, so the entries of the meta dictionary are the entries of
      the row.
    - The module-level globals ([EMAIL_UNSAFE_PHRASES], [SAFE_URLS],
      [url_model]) are the fields of a record passed to every function.
    - A call that can raise returns an [outcome]; [try ... except Exception]
      is [try_except].
    - [urllib.parse.urlparse] and the fitted URL model are library objects:
      they are parameters of the development. *)

From Stdlib Require Import Bool Arith ZArith QArith Lia Lqa List String Ascii.
Import ListNotations.
Local Open Scope string_scope.

(* ===================================================================== *)
(** * Python strings *)
(* ===================================================================== *)

Module Py.

Definition code (c : ascii) : N := N_of_ascii c.

Definition in_range (lo hi : N) (c : ascii) : bool :=
  ((lo <=? code c) && (code c <=? hi))%N.

(** [str.isdigit]: the decimal digits and the superscripts 2, 3 and 1. *)
Definition isdigit (c : ascii) : bool :=
  in_range 48 57 c || (code c =? 178)%N || (code c =? 179)%N || (code c =? 185)%N.

(** [str.isupper] on one character: A-Z and the Latin-1 capitals. *)
Definition isupper (c : ascii) : bool :=
  in_range 65 90 c || (in_range 192 222 c && negb (code c =? 215)%N).

(** [str.isspace], which is also what [str.strip] removes and what the
    regular expression class [\s] matches. *)
Definition isspace (c : ascii) : bool :=
  in_range 9 13 c || in_range 28 32 c || (code c =? 133)%N || (code c =? 160)%N.

(** The regular expression class [\w]. *)
Definition isword (c : ascii) : bool :=
  in_range 48 57 c || in_range 65 90 c || (code c =? 95)%N || in_range 97 122 c
  || (code c =? 170)%N || (code c =? 178)%N || (code c =? 179)%N
  || (code c =? 181)%N || (code c =? 185)%N || (code c =? 186)%N
  || in_range 188 190 c || in_range 192 214 c || in_range 216 246 c
  || in_range 248 255 c.

Definition lower_char (c : ascii) : ascii :=
  if isupper c then ascii_of_N (code c + 32) else c.

(** [s.lower()] *)
Fixpoint lower (s : string) : string :=
  match s with
  | EmptyString => EmptyString
  | String c s' => String (lower_char c) (lower s')
  end.

(** [sum(p(ch) for ch in s)] *)
Fixpoint count_if (p : ascii -> bool) (s : string) : nat :=
  match s with
  | EmptyString => 0
  | String c s' => (if p c then 1 else 0) + count_if p s'
  end.

(** [s.startswith(p)] *)
Definition startswith (s p : string) : bool := String.prefix p s.

(** [p in s] *)
Fixpoint contains (p s : string) : bool :=
  String.prefix p s ||
  match s with
  | EmptyString => false
  | String _ s' => contains p s'
  end.

(** [s.endswith(suf)] *)
Fixpoint endswith (s suf : string) : bool :=
  String.eqb s suf ||
  match s with
  | EmptyString => false
  | String _ s' => endswith s' suf
  end.

(** [s[n:]] *)
Fixpoint drop (n : nat) (s : string) : string :=
  match n, s with
  | O, _ => s
  | S _, EmptyString => EmptyString
  | S k, String _ s' => drop k s'
  end.

(** [s.split(sep)[0]] for a one-character separator: the text before the
    first occurrence of [sep], the whole of [s] when there is none. *)
Fixpoint split_head (sep : ascii) (s : string) : string :=
  match s with
  | EmptyString => EmptyString
  | String c s' => if Ascii.eqb c sep then EmptyString else String c (split_head sep s')
  end.

Fixpoint lstrip (s : string) : string :=
  match s with
  | EmptyString => EmptyString
  | String c s' => if isspace c then lstrip s' else s
  end.

Fixpoint rstrip (s : string) : string :=
  match s with
  | EmptyString => EmptyString
  | String c s' =>
      match rstrip s' with
      | EmptyString => if isspace c then EmptyString else String c EmptyString
      | r => String c r
      end
  end.

(** [s.strip()] *)
Definition strip (s : string) : string := rstrip (lstrip s).

(** [x or y] on strings *)
Definition str_or (x y : string) : string :=
  match x with EmptyString => y | _ => x end.

(** [min(a, b)]: the first argument unless the second is smaller. *)
Definition min (a b : Q) : Q := if Qlt_le_dec b a then b else a.

Definition gtb (a b : Q) : bool := negb (Qle_bool a b).
Definition ltb (a b : Q) : bool := negb (Qle_bool b a).
Definition geb (a b : Q) : bool := Qle_bool b a.

(** [float(n)] of a non-negative count *)
Definition of_nat (n : nat) : Q := inject_Z (Z.of_nat n).

End Py.

(* ===================================================================== *)
(** * Exceptions *)
(* ===================================================================== *)

Inductive outcome (A : Type) : Type :=
| Returns (a : A)
| Raises.
Arguments Returns {A} a.
Arguments Raises {A}.

Definition bind {A B : Type} (m : outcome A) (k : A -> outcome B) : outcome B :=
  match m with
  | Returns a => k a
  | Raises => Raises
  end.

(** [try: body  except Exception: handler] *)
Definition try_except {A : Type} (body handler : outcome A) : outcome A :=
  match body with
  | Returns a => Returns a
  | Raises => handler
  end.

Notation "x <- m ;; k" := (bind m (fun x => k))
  (at level 61, m at next level, right associativity).

Fixpoint for_each {A B : Type} (f : A -> outcome B) (l : list A) : outcome (list B) :=
  match l with
  | [] => Returns []
  | a :: l' => b <- f a ;; bs <- for_each f l' ;; Returns (b :: bs)
  end.

(* ===================================================================== *)
(** * Data model *)
(* ===================================================================== *)

(** One row of the array returned by [extract_email_meta_features]:
    [[length, digit_ratio, upper_ratio, num_exclam, num_urls, num_urgent]],
    all stored as floats. *)
Record meta_row : Type := MetaRow {
  m_length : Q;
  m_digit_ratio : Q;
  m_upper_ratio : Q;
  m_num_exclam : Q;
  m_num_urls : Q;
  m_num_urgent : Q
}.

(** The ["meta"] dictionary of an email result. *)
Record meta_dict : Type := MetaDict {
  length_ : Q;
  digit_ratio : Q;
  upper_ratio : Q;
  num_exclam : Q;
  num_urls : Q;
  num_urgent_terms : Q
}.

Record email_result : Type := EmailResult {
  e_label : string;
  e_probability : Q;
  e_score : Q;
  e_binary_pred : Z;
  e_meta : meta_dict
}.

(** The dictionary of [predict_url_from_features] has no ["url"] key;
    [predict_url] adds it. *)
Record url_result : Type := UrlResult {
  u_url : option string;
  u_label : string;
  u_binary_pred : Z;
  u_confidence : Q
}.

Record hybrid_result : Type := HybridResult {
  final_label : string;
  final_proba : Q;
  final_binary_pred : Z;
  email_branch : email_result;
  url_branch : list url_result
}.

(** The feature row built for the URL model. *)
Record feature_row : Type := FeatureRow {
  f_domain : string;
  f_dummy : Z
}.

(** The process-wide stores read by the pipeline. [url_model] is [None]
    when no model was loaded; a loaded model maps a feature row to the
    class-1 probability or raises. *)
Record globals : Type := Globals {
  EMAIL_UNSAFE_PHRASES : list string;
  SAFE_URLS : list string;
  url_model : option (feature_row -> outcome Q)
}.

(** [a / b]: [ZeroDivisionError] when the divisor is zero. *)
Definition truediv (a b : Q) : outcome Q :=
  if Qeq_bool b 0 then Raises else Returns (a / b)%Q.

(** [a[i]] on a list: [IndexError] out of range. *)
Definition index {A : Type} (a : list A) (i : nat) : outcome A :=
  match nth_error a i with
  | Some x => Returns x
  | None => Raises
  end.

(** [np.mean(xs)] of a non-empty list *)
Definition mean (xs : list Q) : Q :=
  (fold_right Qplus 0 xs / Py.of_nat (List.length xs))%Q.

(* ===================================================================== *)
(** * Meta-feature extractor and rule matcher *)
(* ===================================================================== *)

(** One attempt of the pattern [http[s]?://|www\.] at the head of [t]:
    the length of the match. The pattern carries no flag, so the letters
    are matched as written. *)
Definition url_token_len (t : string) : option nat :=
  if String.prefix "http://" t then Some 7%nat
  else if String.prefix "https://" t then Some 8%nat
  else if String.prefix "www." t then Some 4%nat
  else None.

(** [len(re.findall(r"http[s]?://|www\.", t))]: the scan goes left to
    right and resumes after each match; [skip] is the number of characters
    of the last match still to be passed. *)
Fixpoint findall_count (skip : nat) (t : string) : nat :=
  match t with
  | EmptyString => 0
  | String _ t' =>
      match skip with
      | S k => findall_count k t'
      | O =>
          match url_token_len t with
          | Some n => S (findall_count (Nat.pred n) t')
          | None => findall_count 0 t'
          end
      end
  end.

Definition is_exclam (c : ascii) : bool := Ascii.eqb c "!"%char.

(** The body of the loop of [extract_email_meta_features]. *)
Definition meta_features_of (g : globals) (t : string) : outcome meta_row :=
  let length := String.length t in
  let num_digits := Py.count_if Py.isdigit t in
  digit_ratio <- truediv (Py.of_nat num_digits) (Py.of_nat (Nat.max 1 length)) ;;
  let num_upper := Py.count_if Py.isupper t in
  upper_ratio <- truediv (Py.of_nat num_upper) (Py.of_nat (Nat.max 1 length)) ;;
  let num_exclam := Py.count_if is_exclam t in
  let num_urls := findall_count 0 t in
  let num_urgent :=
    List.length (filter (fun phrase => Py.contains phrase (Py.lower t))
                        (EMAIL_UNSAFE_PHRASES g)) in
  Returns (MetaRow (Py.of_nat length) digit_ratio upper_ratio (Py.of_nat num_exclam)
                   (Py.of_nat num_urls) (Py.of_nat num_urgent)).

Definition extract_email_meta_features (g : globals) (texts : list string)
  : outcome (list meta_row) :=
  for_each (meta_features_of g) texts.

Definition check_email_unsafe_by_rules (g : globals) (text : string) : list string :=
  match EMAIL_UNSAFE_PHRASES g with
  | [] => []
  | _ :: _ =>
      let lower := Py.lower text in
      filter (fun p => Py.contains p lower) (EMAIL_UNSAFE_PHRASES g)
  end.

(* ===================================================================== *)
(** * Email classifier *)
(* ===================================================================== *)

Definition meta_dict_of (meta : meta_row) : meta_dict :=
  MetaDict (m_length meta) (m_digit_ratio meta) (m_upper_ratio meta)
           (m_num_exclam meta) (m_num_urls meta) (m_num_urgent meta).

(** The accumulation of [suspicious_score] in the branch without a rule
    match. *)
Definition suspicious_score_of (meta : meta_row) : Q :=
  let s := 0%Q in
  let s := if Py.gtb (m_digit_ratio meta) 0.15 then (s + 0.2)%Q else s in
  let s := if Py.gtb (m_upper_ratio meta) 0.2 then (s + 0.2)%Q else s in
  let s := if Py.gtb (m_num_exclam meta) 3 then (s + 0.15)%Q else s in
  let s := if Py.gtb (m_num_urls meta) 2 then (s + 0.25)%Q else s in
  s.

Definition predict_email_with_model (g : globals) (text : string)
  : outcome email_result :=
  features <- extract_email_meta_features g [text] ;;
  meta <- index features 0 ;;
  let matched_phrases := check_email_unsafe_by_rules g text in
  let '(probability, binary_pred, label) :=
    match matched_phrases with
    | _ :: _ =>
        let probability :=
          (0.85 + Py.of_nat (List.length matched_phrases) * 0.05)%Q in
        let probability := Py.min probability 0.98 in
        (probability, 1%Z, "Phishing Email")
    | [] =>
        let suspicious_score := suspicious_score_of meta in
        if Py.gtb suspicious_score 0.4
        then ((0.6 + suspicious_score)%Q, 1%Z, "Phishing Email")
        else ((0.1 + suspicious_score)%Q, 0%Z, "Safe Email")
    end in
  Returns (EmailResult label probability (probability * 10)%Q binary_pred
                       (meta_dict_of meta)).

(* ===================================================================== *)
(** * URL helpers *)
(* ===================================================================== *)

(** The characters that end a URL token: white space, the angle brackets,
    the double and the single quote, the closing parenthesis and the
    closing square bracket. *)
Definition url_stop (c : ascii) : bool :=
  Py.isspace c
  || Ascii.eqb c "<"%char || Ascii.eqb c ">"%char || Ascii.eqb c "034"%char
  || Ascii.eqb c "'"%char || Ascii.eqb c ")"%char || Ascii.eqb c "]"%char.

(** The longest prefix without a character of [url_stop]: what the
    negated class of the pattern, repeated, matches. *)
Fixpoint url_body (t : string) : string :=
  match t with
  | EmptyString => EmptyString
  | String c t' => if url_stop c then EmptyString else String c (url_body t')
  end.

(** [(?:https?://|www\.)] under [(?i)]: a letter of the pattern matches the
    characters whose lower case it is. *)
Definition url_prefix_len (t : string) : option nat :=
  let l := Py.lower t in
  if String.prefix "http://" l then Some 7%nat
  else if String.prefix "https://" l then Some 8%nat
  else if String.prefix "www." l then Some 4%nat
  else None.

(** One attempt of the group of [URL_REGEX] at the head of [t]: a prefix
    followed by at least one character that is not in [url_stop]; the
    matched text. *)
Definition url_match_at (t : string) : option string :=
  match url_prefix_len t with
  | Some n =>
      match url_body (Py.drop n t) with
      | EmptyString => None
      | body => Some (String.substring 0 n t ++ body)
      end
  | None => None
  end.

(** [\b] between the previous character (if any) and the current one. *)
Definition word_boundary (prev : option ascii) (c : ascii) : bool :=
  xorb (match prev with Some p => Py.isword p | None => false end) (Py.isword c).

(** [URL_REGEX.findall(t)]; [prev] is the character before the head of
    [t], [skip] the number of characters of the last match still to be
    passed. *)
Fixpoint findall_urls (prev : option ascii) (skip : nat) (t : string) : list string :=
  match t with
  | EmptyString => []
  | String c t' =>
      match skip with
      | S k => findall_urls (Some c) k t'
      | O =>
          if word_boundary prev c then
            match url_match_at t with
            | Some u => u :: findall_urls (Some c) (Nat.pred (String.length u)) t'
            | None => findall_urls (Some c) 0 t'
            end
          else findall_urls (Some c) 0 t'
      end
  end.

Definition extract_urls (email_text : string) : list string :=
  let hits := findall_urls None 0 (Py.str_or email_text "") in
  map (fun u =>
         if Py.startswith (Py.lower u) "http://" || Py.startswith (Py.lower u) "https://"
         then u else "http://" ++ u)
      hits.

Definition normalize_domain_for_check (domain : string) : string :=
  let d := Py.strip (Py.lower (Py.split_head ":"%char domain)) in
  if Py.startswith d "www." then Py.drop 4 d else d.

(** The loop over [SAFE_URLS] of [is_known_safe_domain]. *)
Fixpoint any_safe_entry (d : string) (safe : list string) : bool :=
  match safe with
  | [] => false
  | s :: rest =>
      if String.eqb d s || Py.endswith d ("." ++ s) then true
      else any_safe_entry d rest
  end.

Definition is_known_safe_domain (g : globals) (domain : string) : bool :=
  let d := normalize_domain_for_check domain in
  any_safe_entry d (SAFE_URLS g).

Definition predict_url_from_features (g : globals) (feature_row : feature_row)
  : outcome url_result :=
  match url_model g with
  | None => Returns (UrlResult None "Suspicious URL" (-1) 0.5)
  | Some model =>
      proba <- try_except (model feature_row) (Returns 0.5%Q) ;;
      let '(label, binary_pred) :=
        if Py.ltb proba 0.5 then ("Suspicious URL", (-1)%Z)
        else ("Phishing URL", 1%Z) in
      Returns (UrlResult None label binary_pred proba)
  end.

(** The result of [urlparse]: only [netloc] and [path] are read. *)
Record parse_result : Type := ParseResult {
  netloc : string;
  path : string
}.

Section UrlClassifier.

(** [urllib.parse.urlparse]; it raises [ValueError] on some inputs. *)
Variable urlparse : string -> outcome parse_result.

Definition parse_domain_and_path (url : string) : outcome (string * string * string) :=
  domain <- try_except
              (parsed <- urlparse url ;;
               Returns (Py.str_or (netloc parsed) (path parsed)))
              (Returns url) ;;
  Returns (Py.lower domain, "", "").

Definition build_model_ready_url_features (url : string) : outcome feature_row :=
  r <- parse_domain_and_path url ;;
  let '(domain, _, _) := r in
  Returns (FeatureRow domain 1).

Definition predict_url (g : globals) (url : string) : outcome url_result :=
  r <- parse_domain_and_path url ;;
  let '(domain, _, _) := r in
  if is_known_safe_domain g domain
  then Returns (UrlResult (Some url) "Safe URL" 0 0.98)
  else
    feat <- build_model_ready_url_features url ;;
    res <- predict_url_from_features g feat ;;
    Returns (UrlResult (Some url) (u_label res) (u_binary_pred res) (u_confidence res)).

Definition predict_urls_in_text (g : globals) (email_text : string)
  : outcome (list url_result) :=
  let urls := extract_urls email_text in
  for_each (predict_url g) urls.

(* ===================================================================== *)
(** * Hybrid fuser *)
(* ===================================================================== *)

Definition hybrid_predict (g : globals) (email_text : string) : outcome hybrid_result :=
  let matched := check_email_unsafe_by_rules g email_text in
  email_res <-
    match matched with
    | _ :: _ =>
        features <- extract_email_meta_features g [email_text] ;;
        meta <- index features 0 ;;
        Returns (EmailResult "Phishing Email" 0.98 9.6 1 (meta_dict_of meta))
    | [] => predict_email_with_model g email_text
    end ;;
  url_res_list <- predict_urls_in_text g email_text ;;
  if existsb (fun u => String.eqb (u_label u) "Safe URL") url_res_list
  then Returns (HybridResult "Safe Content" 0.98 0 email_res url_res_list)
  else
    let url_proba :=
      match url_res_list with
      | [] => 0.5%Q
      | _ :: _ => mean (map u_confidence url_res_list)
      end in
    let final_proba := ((e_probability email_res + url_proba) / 2)%Q in
    let final_binary_pred := if Py.geb final_proba 0.5 then 1%Z else 0%Z in
    let final_label :=
      if (final_binary_pred =? 1)%Z then "Phishing Content" else "Safe Content" in
    Returns (HybridResult final_label final_proba final_binary_pred
                          email_res url_res_list).

End UrlClassifier.

(* ===================================================================== *)
(** * Explanation generator *)
(* ===================================================================== *)

(** The dictionary passed as [result]: the keys that
    [generate_ai_explanation] reads, each present or absent. *)
Record verdict : Type := Verdict {
  v_binary_pred : option Z;
  v_probability : option Q;
  v_confidence : option Q;
  v_final_proba : option Q;
  v_final_binary_pred : option Z;
  v_email_branch : option email_result;
  v_url_branch : option (list url_result)
}.

Definition verdict_of_email (r : email_result) : verdict :=
  Verdict (Some (e_binary_pred r)) (Some (e_probability r)) None None None None None.

Definition verdict_of_url (r : url_result) : verdict :=
  Verdict (Some (u_binary_pred r)) None (Some (u_confidence r)) None None None None.

Definition verdict_of_hybrid (r : hybrid_result) : verdict :=
  Verdict None None None (Some (final_proba r)) (Some (final_binary_pred r))
          (Some (email_branch r)) (Some (url_branch r)).

(** [d.get(key, default)] *)
Definition get {A : Type} (entry : option A) (default : A) : A :=
  match entry with
  | Some x => x
  | None => default
  end.

Inductive tier : Type := High | Moderate | Lower.

(** The explanation strings, one constructor per message; the numbers are
    those formatted into the text. *)
Inductive explanation : Type :=
| EmailHighRisk
| UrgentLanguage (n : Q)
| ExcessiveCapitalization (ratio : Q)
| ExcessivePunctuation (n : Q)
| SuspiciousLinks (n : Q)
| EmailRecommendation
| EmailLowRisk
| EmailAnalysis
| EmailNote
| UrlMalicious
| UrlDomainAnalysis
| UrlMaliciousRecommendation
| UrlSuspicious
| UrlSuspiciousAnalysis
| UrlSuspiciousRecommendation
| UrlSafe
| UrlDomainVerification
| UrlNote
| HybridThreat
| HybridEmailRisk
| HybridMaliciousLinks (n : nat)
| HybridCriticalAction
| HybridSafetyCheck
| HybridTrustedDomains (n : nat)
| HybridBestPractice
| ConfidenceLine (t : tier) (confidence : Q).

Definition is_pred (entry : option Z) (v : Z) : bool :=
  match entry with
  | Some b => (b =? v)%Z
  | None => false
  end.

Definition when (b : bool) (l : list explanation) : list explanation :=
  if b then l else [].

Definition email_explanations (result : verdict) (meta_features : option meta_dict)
  : list explanation :=
  if is_pred (v_binary_pred result) 1 then
    [EmailHighRisk]
    ++ match meta_features with
       | Some m =>
           when (Py.gtb (num_urgent_terms m) 0) [UrgentLanguage (num_urgent_terms m)]
           ++ when (Py.gtb (upper_ratio m) 0.1) [ExcessiveCapitalization (upper_ratio m)]
           ++ when (Py.gtb (num_exclam m) 2) [ExcessivePunctuation (num_exclam m)]
           ++ when (Py.gtb (num_urls m) 0) [SuspiciousLinks (num_urls m)]
       | None => []
       end
    ++ [EmailRecommendation]
  else [EmailLowRisk; EmailAnalysis; EmailNote].

Definition url_explanations (result : verdict) : list explanation :=
  if is_pred (v_binary_pred result) 1 then
    [UrlMalicious; UrlDomainAnalysis; UrlMaliciousRecommendation]
  else if is_pred (v_binary_pred result) (-1) then
    [UrlSuspicious; UrlSuspiciousAnalysis; UrlSuspiciousRecommendation]
  else [UrlSafe; UrlDomainVerification; UrlNote].

Definition hybrid_explanations (result : verdict) : list explanation :=
  let final_pred := get (v_final_binary_pred result) 0%Z in
  let email_branch := v_email_branch result in
  let url_branch := get (v_url_branch result) [] in
  if (final_pred =? 1)%Z then
    [HybridThreat]
    ++ when (is_pred (option_map e_binary_pred email_branch) 1) [HybridEmailRisk]
    ++ when (existsb (fun u => (u_binary_pred u =? 1)%Z) url_branch)
         (let malicious_urls := filter (fun u => (u_binary_pred u =? 1)%Z) url_branch in
          [HybridMaliciousLinks (List.length malicious_urls)])
    ++ [HybridCriticalAction]
  else
    [HybridSafetyCheck]
    ++ when (existsb (fun u => String.eqb (u_label u) "Safe URL") url_branch)
         (let safe_urls := filter (fun u => String.eqb (u_label u) "Safe URL") url_branch in
          [HybridTrustedDomains (List.length safe_urls)])
    ++ [HybridBestPractice].

(** [result.get("probability", result.get("confidence",
    result.get("final_proba", 0)))] *)
Definition confidence_of (result : verdict) : Q :=
  get (v_probability result) (get (v_confidence result) (get (v_final_proba result) 0%Q)).

Definition confidence_tier (confidence : Q) : tier :=
  if Py.gtb confidence 0.9 then High
  else if Py.gtb confidence 0.7 then Moderate
  else Lower.

Definition generate_ai_explanation (mode : string) (result : verdict)
    (input_text : string) (meta_features : option meta_dict) : list explanation :=
  let explanations :=
    if String.eqb mode "email" then email_explanations result meta_features
    else if String.eqb mode "url" then url_explanations result
    else if String.eqb mode "hybrid" then hybrid_explanations result
    else [] in
  let confidence := confidence_of result in
  explanations ++ [ConfidenceLine (confidence_tier confidence) confidence].

(* ===================================================================== *)
(** * An instance of [urlparse] *)
(* ===================================================================== *)

(** The splitting done by [urllib.parse.urlparse] on a URL of printable
    ASCII characters without [;]: the scheme up to the first colon, the
    network location between [//] and the first of [/], [?] and [#], the
    path up to the first of [?] and [#]. An unbalanced square bracket in
    the network location raises. A balanced bracketed host is accepted as
    it is: CPython checks in addition that it is an IP address and raises
    when it is not, which this instance leaves out, so it is meant for
    network locations without a bracketed host. The examples below run the
    pipeline with this instance. *)
Module UrlLib.

Definition is_alpha (c : ascii) : bool := Py.in_range 65 90 c || Py.in_range 97 122 c.

Definition is_scheme_char (c : ascii) : bool :=
  is_alpha c || Py.in_range 48 57 c
  || Ascii.eqb c "+"%char || Ascii.eqb c "-"%char || Ascii.eqb c "."%char.

Fixpoint all_chars (p : ascii -> bool) (s : string) : bool :=
  match s with
  | EmptyString => true
  | String c s' => p c && all_chars p s'
  end.

Fixpoint take_until (stop : ascii -> bool) (s : string) : string :=
  match s with
  | EmptyString => EmptyString
  | String c s' => if stop c then EmptyString else String c (take_until stop s')
  end.

Definition strip_scheme (url : string) : string :=
  let before := Py.split_head ":"%char url in
  let i := String.length before in
  match before with
  | String c _ =>
      if (i <? String.length url)%nat && is_alpha c && all_chars is_scheme_char before
      then Py.drop (S i) url else url
  | EmptyString => url
  end.

Definition ends_netloc (c : ascii) : bool :=
  Ascii.eqb c "/"%char || Ascii.eqb c "?"%char || Ascii.eqb c "#"%char.

Definition ends_path (c : ascii) : bool :=
  Ascii.eqb c "?"%char || Ascii.eqb c "#"%char.

Definition has_char (c : ascii) (s : string) : bool :=
  negb (all_chars (fun x => negb (Ascii.eqb x c)) s).

Definition urlparse (url : string) : outcome parse_result :=
  let url := strip_scheme url in
  let '(netloc, url) :=
    if String.prefix "//" url
    then let rest := Py.drop 2 url in
         let netloc := take_until ends_netloc rest in
         (netloc, Py.drop (String.length netloc) rest)
    else (EmptyString, url) in
  if xorb (has_char "["%char netloc) (has_char "]"%char netloc)
  then Raises
  else Returns (ParseResult netloc (take_until ends_path url)).

End UrlLib.

(** A character that can be part of a URL token. *)
Definition not_stop (c : ascii) : bool := negb (url_stop c).



(* ===================================================================== *)
(** * Keyword store loader *)
(* ===================================================================== *)

(** A parsed JSON document. A JSON object is the list of its members, the
    keys being distinct. *)
#[warnings="-register-all"]
Inductive json : Type :=
| JNull
| JBool (b : bool)
| JNumber (q : Q)
| JString (s : string)
| JArray (items : list json)
| JObject (members : list (string * json)).

(** [d.get(key, default)] on a parsed object; a value that is no object has
    no [get]: [AttributeError]. *)
Definition json_get (d : json) (key : string) (default : json) : outcome json :=
  match d with
  | JObject members =>
      match find (fun kv => String.eqb (fst kv) key) members with
      | Some kv => Returns (snd kv)
      | None => Returns default
      end
  | _ => Raises
  end.

(** [d.items()] *)
Definition json_items (d : json) : outcome (list (string * json)) :=
  match d with
  | JObject members => Returns members
  | _ => Raises
  end.

(** [for p in v]: the items of an array, the characters of a string, the
    keys of an object; anything else is not iterable: [TypeError]. *)
Definition json_iter (v : json) : outcome (list json) :=
  match v with
  | JArray items => Returns items
  | JString s => Returns (map (fun c => JString (String c EmptyString))
                              (list_ascii_of_string s))
  | JObject members => Returns (map (fun kv => JString (fst kv)) members)
  | _ => Raises
  end.

(** A [set] of strings: a list without duplicates, in the order of
    insertion. *)
Definition set_add (x : string) (s : list string) : list string :=
  if existsb (String.eqb x) s then s else s ++ [x].

(** The body of both inner loops:
    [if isinstance(p, str) and p.strip(): phrases.add(p.strip().lower())] *)
Definition add_phrase (phrases : list string) (p : json) : list string :=
  match p with
  | JString s =>
      match Py.strip s with
      | EmptyString => phrases
      | _ => set_add (Py.lower (Py.strip s)) phrases
      end
  | _ => phrases
  end.

(** The loop over the categories of ["phishing_keywords"]. *)
Fixpoint add_categories (phrases : list string) (cats : list (string * json))
  : outcome (list string) :=
  match cats with
  | [] => Returns phrases
  | (_, lst) :: rest =>
      ps <- json_iter lst ;;
      add_categories (fold_left add_phrase ps phrases) rest
  end.

(** [load_email_unsafe_keywords]: [file] is what opening and parsing the
    keyword file gives; the result is the new value of
    [(EMAIL_UNSAFE_DATA, EMAIL_UNSAFE_PHRASES)]. *)
Definition load_email_unsafe_keywords (file : outcome json) : json * list string :=
  let body :=
    data <- file ;;
    pk <- json_get data "phishing_keywords" (JObject []) ;;
    cats <- json_items pk ;;
    phrases <- add_categories [] cats ;;
    other <- json_get data "other_red_flags" (JArray []) ;;
    ps <- json_iter other ;;
    Returns (data, fold_left add_phrase ps phrases) in
  match try_except body (Returns (JObject [], [])) with
  | Returns r => r
  | Raises => (JObject [], [])
  end.

(** A phrase in normal form: not empty, without surrounding white space,
    in lower case. *)
Definition normal_phrase (p : string) : Prop :=
  p <> EmptyString /\ Py.strip p = p /\ Py.lower p = p.

(** The invariant of the keyword store. *)
Definition store_ok (phrases : list string) : Prop :=
  NoDup phrases /\ forall p, In p phrases -> normal_phrase p.

(* ===================================================================== *)
(** * Detection history: analytics *)
(* ===================================================================== *)

(** A document of the detections collection, as [save_detection] stores
    it; [d_result] is [None] for a document without a result. The result
    dictionary is kept through the keys that the analytics and the
    explanation generator read. *)
Record detection : Type := Detection {
  d_username : string;
  d_mode : string;
  d_input_text : string;
  d_url_input : option string;
  d_result : option verdict;
  d_timestamp : Z
}.

Definition empty_verdict : verdict := Verdict None None None None None None None.

(** [save_detection]: [insert_one] appends the document; [now] is the
    clock. *)
Definition save_detection (collection : list detection) (now : Z)
    (username mode input_text : string) (result : verdict)
    (url_input : option string) : list detection :=
  collection ++ [Detection username mode input_text url_input (Some result) now].

Record analytics_data : Type := AnalyticsData {
  total_detections : nat;
  email_detections : nat;
  url_detections : nat;
  hybrid_detections : nat;
  phishing_count : nat;
  safe_count : nat;
  detections : list detection
}.

(** One turn of the loop that counts phishing and safe detections. *)
Definition count_detection (counts : nat * nat) (d : detection) : nat * nat :=
  let '(phishing_count, safe_count) := counts in
  let result := get (d_result d) empty_verdict in
  if String.eqb (d_mode d) "hybrid" then
    if is_pred (v_final_binary_pred result) 1
    then (S phishing_count, safe_count) else (phishing_count, S safe_count)
  else
    if is_pred (v_binary_pred result) 1
    then (S phishing_count, safe_count) else (phishing_count, S safe_count).

Definition mode_is (m : string) (d : detection) : bool := String.eqb (d_mode d) m.

(** [get_analytics_data(username)]; [username] is [None] or empty for all
    users. The documents are returned as they are stored (their
    serialization, which rewrites the identifier and adds an ISO
    timestamp, changes none of the fields kept here). *)
Definition get_analytics_data (collection : list detection) (username : option string)
  : analytics_data :=
  let detections :=
    match username with
    | Some (String c u) =>
        filter (fun d => String.eqb (d_username d) (String c u)) collection
    | _ => collection
    end in
  let '(phishing_count, safe_count) := fold_left count_detection detections (0%nat, 0%nat) in
  AnalyticsData (List.length detections)
                (List.length (filter (mode_is "email") detections))
                (List.length (filter (mode_is "url") detections))
                (List.length (filter (mode_is "hybrid") detections))
                phishing_count safe_count detections.

(* ===================================================================== *)
(** * User accounts *)
(* ===================================================================== *)

(** A document of the users collection as this module writes it. The
    collection is the list of its documents in insertion order;
    [find_one] returns the first match, [update_one] changes it. *)
Record user_doc : Type := UserDoc {
  ud_username : string;
  ud_password_hash : string;
  ud_created_at : Z;
  ud_is_admin : bool
}.

Definition find_one (users : list user_doc) (username : string) : option user_doc :=
  find (fun u => String.eqb (ud_username u) username) users.

Definition insert_one (users : list user_doc) (doc : user_doc) : list user_doc :=
  users ++ [doc].

Fixpoint update_one (users : list user_doc) (username : string)
    (set : user_doc -> user_doc) : list user_doc :=
  match users with
  | [] => []
  | u :: rest =>
      if String.eqb (ud_username u) username then set u :: rest
      else u :: update_one rest username set
  end.

Section Accounts.

(** [werkzeug.security]: hashing draws a random salt, here an argument. *)
Variable generate_password_hash : nat -> string -> string.
Variable check_password_hash : string -> string -> bool.

(** [create_user]; [now] is the clock, [salt] and [salt'] the salts of the
    two hashing calls. Returns the flag and the new collection. *)
Definition create_user (users : list user_doc) (now : Z) (salt salt' : nat)
    (username password : string) : bool * list user_doc :=
  match find_one users username with
  | Some _ => (false, users)
  | None =>
      let password_hash := generate_password_hash salt password in
      let user_data :=
        UserDoc username password_hash now (String.eqb username "admin") in
      let users := insert_one users user_data in
      let users :=
        if String.eqb username "admin" then
          match find_one users "admin" with
          | Some _ =>
              let new_password_hash := generate_password_hash salt' "ppnp@123" in
              update_one users "admin"
                (fun u => UserDoc (ud_username u) new_password_hash
                                  (ud_created_at u) true)
          | None => users
          end
        else users in
      (true, users)
  end.

Definition create_admin_user (users : list user_doc) (now : Z) (salt : nat)
  : list user_doc :=
  match find_one users "admin" with
  | Some _ => users
  | None =>
      let password_hash := generate_password_hash salt "ppnp@123" in
      insert_one users (UserDoc "admin" password_hash now true)
  end.

Definition verify_user (users : list user_doc) (now : Z) (salt : nat)
    (username password : string) : bool * list user_doc :=
  let '(user, users) :=
    match find_one users username with
    | Some u => (Some u, users)
    | None =>
        if String.eqb username "admin" && String.eqb password "ppnp@123" then
          let users := create_admin_user users now salt in
          (find_one users username, users)
        else (None, users)
    end in
  match user with
  | None => (false, users)
  | Some u => (check_password_hash (ud_password_hash u) password, users)
  end.

(** [is_admin]: [None] when there is no such user. *)
Definition is_admin (users : list user_doc) (username : string) : option bool :=
  match find_one users username with
  | None => None
  | Some u => Some (ud_is_admin u)
  end.

End Accounts.

(* ===================================================================== *)
(** * Report: wrapping of the input text *)
(* ===================================================================== *)

(** [s.split()]: the maximal runs of characters that are not white space.
    [word] is the run being read, reversed. *)
Fixpoint split_words (word : list ascii) (s : string) : list string :=
  match s with
  | EmptyString =>
      match word with
      | [] => []
      | _ => [string_of_list_ascii (rev word)]
      end
  | String c s' =>
      if Py.isspace c then
        match word with
        | [] => split_words [] s'
        | _ => string_of_list_ascii (rev word) :: split_words [] s'
        end
      else split_words (c :: word) s'
  end.

Definition split (s : string) : list string := split_words [] s.

(** The wrapping loop of [export_report]: the lines flushed so far and the
    line being filled. *)
Fixpoint wrap_words (words : list string) (lines : list string) (current_line : string)
  : list string * string :=
  match words with
  | [] => (lines, current_line)
  | word :: rest =>
      if (String.length (current_line ++ word) <? 80)%nat
      then wrap_words rest lines (current_line ++ word ++ " ")
      else wrap_words rest (lines ++ [Py.strip current_line]) (word ++ " ")
  end.

(** The lines drawn for [input_text]: at most ten. *)
Definition report_lines (input_text : string) : list string :=
  let words := split input_text in
  let '(lines, current_line) := wrap_words words [] EmptyString in
  let lines :=
    match current_line with
    | EmptyString => lines
    | _ => (lines ++ [Py.strip current_line])%list
    end in
  firstn 10 lines.

(* ===================================================================== *)
(** * The specification's reading of three operations *)
(* ===================================================================== *)

(** These definitions follow the words of the specification, not the code;
    the theorems below compare them with the functions above. *)
Module Spec.

(** One of the three tokens starts at the head of [t]. *)
Definition token_at (t : string) : bool :=
  String.prefix "http://" t || String.prefix "https://" t || String.prefix "www." t.

(** The number of positions of [t] at which one of [http://], [https://]
    and [www.] starts. *)
Fixpoint occurrences (t : string) : nat :=
  match t with
  | EmptyString => 0
  | String _ t' => (if token_at t then 1 else 0) + occurrences t'
  end.

(** The same count with the letters compared without regard to case. *)
Definition occurrences_ignoring_case (t : string) : nat :=
  occurrences (Py.lower t).

(** The text before the last colon; the whole text when there is none. *)
Fixpoint strip_trailing_port (s : string) : string :=
  match s with
  | EmptyString => EmptyString
  | String c s' =>
      if UrlLib.has_char ":"%char s' then String c (strip_trailing_port s')
      else if Ascii.eqb c ":"%char then EmptyString
      else s
  end.

(** Lower-case, strip the trailing port, strip one leading [www.]. *)
Definition normalize_domain (domain : string) : string :=
  let d := strip_trailing_port (Py.lower domain) in
  if String.prefix "www." d then Py.drop 4 d else d.

(** The normalized domain equals a trusted entry or ends with a dot
    followed by one. *)
Definition is_safe_domain (trusted : list string) (domain : string) : bool :=
  let d := normalize_domain domain in
  existsb (fun s => String.eqb d s || Py.endswith d ("." ++ s)) trusted.

(** High from 0.9 on, Moderate from 0.7 on, Lower otherwise. *)
Definition confidence_tier (confidence : Q) : tier :=
  if Qle_bool 0.9 confidence then High
  else if Qle_bool 0.7 confidence then Moderate
  else Lower.

End Spec.

(* ===================================================================== *)
(** * The domain normalization in words *)
(* ===================================================================== *)

(** The normalization as the amended reading of the whitelist describes
    it, step by step and on the list of characters: keep the text before
    the first colon, lower-case every character, remove the white space at
    both ends, remove one leading [www.]. Written without the functions of
    the code, to be compared with [normalize_domain_for_check]. *)
Module SpecDomain.

Fixpoint take_while (p : ascii -> bool) (l : list ascii) : list ascii :=
  match l with
  | [] => []
  | c :: l' => if p c then c :: take_while p l' else []
  end.

Fixpoint drop_while (p : ascii -> bool) (l : list ascii) : list ascii :=
  match l with
  | [] => []
  | c :: l' => if p c then drop_while p l' else l
  end.

Definition not_colon (c : ascii) : bool := negb (Ascii.eqb c ":"%char).

(** The text before the first colon (all of it when there is none). *)
Definition before_first_colon (s : string) : string :=
  string_of_list_ascii (take_while not_colon (list_ascii_of_string s)).

(** Every character in lower case. *)
Definition lower_cased (s : string) : string :=
  string_of_list_ascii (map Py.lower_char (list_ascii_of_string s)).

(** The white space at the start and at the end removed. *)
Definition without_surrounding_space (s : string) : string :=
  string_of_list_ascii
    (rev (drop_while Py.isspace (rev (drop_while Py.isspace (list_ascii_of_string s))))).

(** One leading [www.] removed. *)
Definition without_leading_www (s : string) : string :=
  match s with
  | String "w" (String "w" (String "w" (String "." rest))) => rest
  | _ => s
  end.

Definition normalize_domain (domain : string) : string :=
  without_leading_www
    (without_surrounding_space (lower_cased (before_first_colon domain))).

End SpecDomain.

(* ===================================================================== *)
(** * Stores used in the examples *)
(* ===================================================================== *)

Module Demo.

Definition phrases : list string := ["verify"; "urgent"].
Definition trusted : list string := ["paypal.com"; "bank.com"].

(** No URL model loaded. *)
Definition no_model : globals := Globals phrases trusted None.

(** A loaded model that gives every URL the class-1 probability 1. *)
Definition sure_model : globals :=
  Globals phrases trusted (Some (fun _ => Returns 1%Q)).

(** A loaded model whose invocation raises. *)
Definition failing_model : globals :=
  Globals phrases trusted (Some (fun _ => Raises)).

(** No phrase in the keyword store. *)
Definition no_phrases : globals := Globals [] trusted None.

End Demo.

(** Reads the first characters of [t] off a successful [String.prefix]
    test against a literal. *)
Ltac read_prefix H t :=
  repeat (destruct t as [|? t]; [discriminate H|];
          cbn [String.prefix] in H;
          match type of H with
          | (if Ascii.ascii_dec ?a ?b then _ else _) = true =>
              destruct (Ascii.ascii_dec a b) as [<-|]; [|discriminate H]
          end).

(* ===================================================================== *)
(** * Basic facts *)
(* ===================================================================== *)

Lemma gtb_true (a b : Q) : Py.gtb a b = true <-> (b < a)%Q.
Proof.
  unfold Py.gtb. rewrite negb_true_iff. split; intro H.
  - apply Qnot_le_lt. intro L. apply Qle_bool_iff in L. congruence.
  - destruct (Qle_bool a b) eqn:E; [|reflexivity].
    apply Qle_bool_iff in E. exfalso. apply (Qlt_not_le _ _ H E).
Qed.

Lemma gtb_false (a b : Q) : Py.gtb a b = false <-> (a <= b)%Q.
Proof.
  unfold Py.gtb. rewrite negb_false_iff. apply Qle_bool_iff.
Qed.

Lemma ltb_true (a b : Q) : Py.ltb a b = true <-> (a < b)%Q.
Proof. apply (gtb_true b a). Qed.

Lemma of_nat_nonneg (n : nat) : (0 <= Py.of_nat n)%Q.
Proof.
  unfold Py.of_nat, Qle. simpl. lia.
Qed.

Lemma of_nat_le (n m : nat) : (n <= m)%nat -> (Py.of_nat n <= Py.of_nat m)%Q.
Proof.
  intro H. unfold Py.of_nat, Qle. simpl. lia.
Qed.

Lemma of_nat_pos (n : nat) : (0 < n)%nat -> (0 < Py.of_nat n)%Q.
Proof.
  intro H. unfold Py.of_nat, Qlt. simpl. lia.
Qed.

Lemma count_if_le_length (p : ascii -> bool) (s : string) :
  (Py.count_if p s <= String.length s)%nat.
Proof.
  induction s as [|c s IH]; simpl.
  - lia.
  - destruct (p c); lia.
Qed.

(** A quotient of a count by [max(1, length)] is defined and lies in the
    unit interval. *)
Lemma ratio_returns (k n : nat) :
  (k <= n)%nat ->
  exists r, truediv (Py.of_nat k) (Py.of_nat (Nat.max 1 n)) = Returns r
            /\ (r == Py.of_nat k / Py.of_nat (Nat.max 1 n))%Q
            /\ (0 <= r)%Q /\ (r <= 1)%Q.
Proof.
  intro Hk.
  assert (Hpos : (0 < Py.of_nat (Nat.max 1 n))%Q) by (apply of_nat_pos; lia).
  unfold truediv.
  destruct (Qeq_bool (Py.of_nat (Nat.max 1 n)) 0) eqn:E.
  - apply Qeq_bool_iff in E. rewrite E in Hpos. discriminate Hpos.
  - eexists. split; [reflexivity|]. split; [reflexivity|]. split.
    + apply Qle_shift_div_l; [exact Hpos|].
      rewrite Qmult_0_l. apply of_nat_nonneg.
    + apply Qle_shift_div_r; [exact Hpos|].
      rewrite Qmult_1_l. apply of_nat_le. lia.
Qed.

Lemma meta_features_of_returns (g : globals) (t : string) :
  exists dr ur,
    meta_features_of g t =
      Returns (MetaRow (Py.of_nat (String.length t)) dr ur
                 (Py.of_nat (Py.count_if is_exclam t))
                 (Py.of_nat (findall_count 0 t))
                 (Py.of_nat (List.length
                    (filter (fun phrase => Py.contains phrase (Py.lower t))
                            (EMAIL_UNSAFE_PHRASES g)))))
    /\ (dr == Py.of_nat (Py.count_if Py.isdigit t)
              / Py.of_nat (Nat.max 1 (String.length t)))%Q
    /\ (ur == Py.of_nat (Py.count_if Py.isupper t)
              / Py.of_nat (Nat.max 1 (String.length t)))%Q
    /\ (0 <= dr)%Q /\ (dr <= 1)%Q /\ (0 <= ur)%Q /\ (ur <= 1)%Q.
Proof.
  destruct (ratio_returns _ _ (count_if_le_length Py.isdigit t))
    as (dr & Hd & Hdv & Hd0 & Hd1).
  destruct (ratio_returns _ _ (count_if_le_length Py.isupper t))
    as (ur & Hu & Huv & Hu0 & Hu1).
  exists dr, ur. unfold meta_features_of. rewrite Hd, Hu. simpl.
  repeat split; assumption.
Qed.

(* ===================================================================== *)
(** * Meta-features: ranges *)
(* ===================================================================== *)

(** C9. For every text, the extractor returns a row (the division never
    raises, the divisor being at least 1) whose digit and upper-case ratios
    lie in [0,1] and whose three counts are non-negative; on a text of
    length 0 both ratios are 0. *)
Theorem C9_meta_features_in_range (g : globals) (t : string) :
  exists m,
    extract_email_meta_features g [t] = Returns [m]
    /\ (1 <= Py.of_nat (Nat.max 1 (String.length t)))%Q
    /\ (m_digit_ratio m == Py.of_nat (Py.count_if Py.isdigit t)
                           / Py.of_nat (Nat.max 1 (String.length t)))%Q
    /\ (m_upper_ratio m == Py.of_nat (Py.count_if Py.isupper t)
                           / Py.of_nat (Nat.max 1 (String.length t)))%Q
    /\ (0 <= m_digit_ratio m)%Q /\ (m_digit_ratio m <= 1)%Q
    /\ (0 <= m_upper_ratio m)%Q /\ (m_upper_ratio m <= 1)%Q
    /\ (0 <= m_num_exclam m)%Q /\ (0 <= m_num_urls m)%Q /\ (0 <= m_num_urgent m)%Q
    /\ (String.length t = 0%nat ->
        (m_digit_ratio m == 0)%Q /\ (m_upper_ratio m == 0)%Q).
Proof.
  destruct (meta_features_of_returns g t)
    as (dr & ur & Hm & Hdv & Huv & Hd0 & Hd1 & Hu0 & Hu1).
  eexists. split.
  { unfold extract_email_meta_features. simpl. rewrite Hm. reflexivity. }
  cbn [m_digit_ratio m_upper_ratio m_num_exclam m_num_urls m_num_urgent].
  split.
  { change 1%Q with (Py.of_nat 1). apply of_nat_le. lia. }
  repeat split; try assumption; try apply of_nat_nonneg.
  - rewrite Hdv.
    assert (Hc := count_if_le_length Py.isdigit t).
    replace (Py.count_if Py.isdigit t) with 0%nat by lia.
    rewrite H. reflexivity.
  - rewrite Huv.
    assert (Hc := count_if_le_length Py.isupper t).
    replace (Py.count_if Py.isupper t) with 0%nat by lia.
    rewrite H. reflexivity.
Qed.

Lemma C9_meta_features_in_range_witness :
  exists m,
    extract_email_meta_features (Globals [] [] None) [EmptyString] = Returns [m]
    /\ (m_digit_ratio m == 0)%Q /\ (m_upper_ratio m == 0)%Q.
Proof.
  destruct (C9_meta_features_in_range (Globals [] [] None) EmptyString)
    as (m & Hm & _ & _ & _ & _ & _ & _ & _ & _ & _ & _ & Hzero).
  exists m. split; [exact Hm|]. apply Hzero. reflexivity.
Defined.

(* ===================================================================== *)
(** * Email classifier *)
(* ===================================================================== *)

Lemma extract_singleton (g : globals) (t : string) :
  exists m, extract_email_meta_features g [t] = Returns [m]
            /\ meta_features_of g t = Returns m.
Proof.
  destruct (meta_features_of_returns g t) as (dr & ur & Hm & _).
  eexists. split; [|exact Hm].
  unfold extract_email_meta_features. simpl. rewrite Hm. reflexivity.
Qed.

(** The email classifier always returns; its result is read off the two
    branches of the source. *)
Lemma predict_email_equation (g : globals) (t : string) :
  exists m,
    meta_features_of g t = Returns m
    /\ predict_email_with_model g t =
       Returns
         (match check_email_unsafe_by_rules g t with
          | _ :: _ =>
              let p := Py.min (0.85 + Py.of_nat
                         (List.length (check_email_unsafe_by_rules g t)) * 0.05)%Q 0.98 in
              EmailResult "Phishing Email" p (p * 10)%Q 1 (meta_dict_of m)
          | [] =>
              if Py.gtb (suspicious_score_of m) 0.4
              then EmailResult "Phishing Email" (0.6 + suspicious_score_of m)%Q
                     ((0.6 + suspicious_score_of m) * 10)%Q 1 (meta_dict_of m)
              else EmailResult "Safe Email" (0.1 + suspicious_score_of m)%Q
                     ((0.1 + suspicious_score_of m) * 10)%Q 0 (meta_dict_of m)
          end).
Proof.
  destruct (extract_singleton g t) as (m & He & Hm).
  exists m. split; [exact Hm|].
  unfold predict_email_with_model. rewrite He. simpl.
  destruct (check_email_unsafe_by_rules g t) as [|p ps].
  - destruct (Py.gtb (suspicious_score_of m) 0.4); reflexivity.
  - reflexivity.
Qed.

Lemma min_cases (a b : Q) :
  ((a <= b)%Q /\ Py.min a b = a) \/ ((b < a)%Q /\ Py.min a b = b).
Proof.
  unfold Py.min. destruct (Qlt_le_dec b a); [right|left]; split; auto.
Qed.

Lemma min_monotone (a a' b : Q) : (a <= a')%Q -> (Py.min a b <= Py.min a' b)%Q.
Proof.
  intro H.
  destruct (min_cases a b) as [[H1 ->]|[H1 ->]];
    destruct (min_cases a' b) as [[H2 ->]|[H2 ->]]; lra.
Qed.

Lemma rule_probability_monotone (n n' : nat) :
  (n <= n')%nat ->
  (Py.min (0.85 + Py.of_nat n * 0.05) 0.98
   <= Py.min (0.85 + Py.of_nat n' * 0.05) 0.98)%Q.
Proof.
  intro H. apply min_monotone.
  assert (Py.of_nat n <= Py.of_nat n')%Q by (apply of_nat_le; exact H).
  lra.
Qed.

(** C4. When the rule matcher finds at least one phrase, the email
    classifier returns binary_pred 1, label Phishing Email and the
    probability 0.85 + 0.05 n capped at 0.98, where n is the number of
    matched phrases; the probability lies in [0.85, 0.98] and does not
    decrease when the number of matched phrases grows. *)
Theorem C4_rule_path_probability (g : globals) (t : string) :
  check_email_unsafe_by_rules g t <> [] ->
  let n := List.length (check_email_unsafe_by_rules g t) in
  exists r,
    predict_email_with_model g t = Returns r
    /\ e_binary_pred r = 1%Z
    /\ e_label r = "Phishing Email"
    /\ ((0.85 + 0.05 * Py.of_nat n <= 0.98)%Q ->
        (e_probability r == 0.85 + 0.05 * Py.of_nat n)%Q)
    /\ ((0.98 < 0.85 + 0.05 * Py.of_nat n)%Q -> (e_probability r == 0.98)%Q)
    /\ (0.85 <= e_probability r)%Q /\ (e_probability r <= 0.98)%Q
    /\ (forall g' t' r',
           predict_email_with_model g' t' = Returns r' ->
           (n <= List.length (check_email_unsafe_by_rules g' t'))%nat ->
           (e_probability r <= e_probability r')%Q).
Proof.
  intros Hne n.
  destruct (predict_email_equation g t) as (m & _ & Heq).
  assert (Hn : (1 <= n)%nat).
  { subst n. destruct (check_email_unsafe_by_rules g t); [congruence|simpl; lia]. }
  assert (Hq : (1 <= Py.of_nat n)%Q).
  { change 1%Q with (Py.of_nat 1). apply of_nat_le. exact Hn. }
  destruct (check_email_unsafe_by_rules g t) as [|p ps] eqn:Hm; [congruence|].
  fold n in Heq.
  eexists. split; [exact Heq|].
  cbn [e_binary_pred e_label e_probability].
  split; [reflexivity|]. split; [reflexivity|].
  assert (Hmono : forall g' t' r',
             predict_email_with_model g' t' = Returns r' ->
             (n <= List.length (check_email_unsafe_by_rules g' t'))%nat ->
             (Py.min (0.85 + Py.of_nat n * 0.05) 0.98 <= e_probability r')%Q).
  { intros g' t' r' Hr' Hle.
    destruct (predict_email_equation g' t') as (m' & _ & Heq').
    rewrite Heq' in Hr'. injection Hr' as <-.
    destruct (check_email_unsafe_by_rules g' t') as [|p' ps'] eqn:Hm';
      [simpl in Hle; lia|].
    cbn [e_probability]. apply rule_probability_monotone. exact Hle. }
  destruct (min_cases (0.85 + Py.of_nat n * 0.05) 0.98) as [[H1 H2]|[H1 H2]];
    rewrite H2 in *; repeat split; try lra; exact Hmono.
Qed.

Lemma C4_rule_path_probability_witness :
  exists r,
    predict_email_with_model Demo.no_model "URGENT: verify your password" = Returns r
    /\ e_binary_pred r = 1%Z
    /\ (e_probability r == 0.95)%Q.
Proof.
  assert (Hne : check_email_unsafe_by_rules Demo.no_model "URGENT: verify your password"
                <> []) by (vm_compute; discriminate).
  destruct (C4_rule_path_probability Demo.no_model "URGENT: verify your password" Hne)
    as (r & Hr & Hb & _ & Hp & _).
  exists r. split; [exact Hr|]. split; [exact Hb|].
  rewrite Hp; vm_compute; [reflexivity|discriminate].
Defined.

(** Without a rule match, a result labelled phishing always carries a
    probability above 1, and a result labelled safe one in [0.1, 0.5]. *)
Lemma heuristic_path_probability (g : globals) (t : string) (r : email_result) :
  check_email_unsafe_by_rules g t = [] ->
  predict_email_with_model g t = Returns r ->
  (e_binary_pred r = 1%Z /\ (1 < e_probability r)%Q)
  \/ (e_binary_pred r = 0%Z /\ (0.1 <= e_probability r)%Q /\ (e_probability r <= 0.5)%Q).
Proof.
  intros Hm Hr.
  destruct (predict_email_equation g t) as (m & _ & Heq).
  rewrite Heq, Hm in Hr. injection Hr as <-.
  destruct (Py.gtb (suspicious_score_of m) 0.4) eqn:E.
  - left. apply gtb_true in E. cbn [e_binary_pred e_probability]. split; [reflexivity|lra].
  - right. apply gtb_false in E. cbn [e_binary_pred e_probability].
    split; [reflexivity|].
    assert (0 <= suspicious_score_of m)%Q.
    { unfold suspicious_score_of.
      destruct (Py.gtb (m_digit_ratio m) 0.15), (Py.gtb (m_upper_ratio m) 0.2),
        (Py.gtb (m_num_exclam m) 3), (Py.gtb (m_num_urls m) 2); vm_compute; discriminate. }
    lra.
Qed.

(** C1. The text [www.AA www.BB www.CC] matches no phrase, has three URL
    tokens and 30 percent of capitals: the heuristic branch returns the
    probability 0.6 + 0.45 = 1.05, outside [0,1]; with a URL model that
    answers 1 the fused probability is 1.025. *)
Theorem C1_probability_above_one :
  (exists r,
      predict_email_with_model Demo.no_model "www.AA www.BB www.CC" = Returns r
      /\ e_label r = "Phishing Email"
      /\ (e_probability r == 1.05)%Q
      /\ ~ (e_probability r <= 1)%Q)
  /\ (exists h,
         hybrid_predict UrlLib.urlparse Demo.sure_model "www.AA www.BB www.CC" = Returns h
         /\ (final_proba h == 1.025)%Q
         /\ ~ (final_proba h <= 1)%Q).
Proof.
  split.
  - eexists. split; [vm_compute; reflexivity|].
    split; [reflexivity|]. split; [reflexivity|].
    intro H. vm_compute in H. apply H. reflexivity.
  - eexists. split; [vm_compute; reflexivity|].
    split; [reflexivity|].
    intro H. vm_compute in H. apply H. reflexivity.
Qed.

(* ===================================================================== *)
(** * URL classifier *)
(* ===================================================================== *)

Section UrlClassifierFacts.

Variable urlparse : string -> outcome parse_result.

(** Whatever [urlparse] does, the domain is obtained: its exception is
    handled by taking the URL itself. *)
Lemma parse_domain_returns (url : string) :
  exists domain, parse_domain_and_path urlparse url = Returns (domain, "", "").
Proof.
  unfold parse_domain_and_path.
  destruct (urlparse url) as [parsed|]; simpl; eexists; reflexivity.
Qed.

Lemma build_features_equation (url domain : string) :
  parse_domain_and_path urlparse url = Returns (domain, "", "") ->
  build_model_ready_url_features urlparse url = Returns (FeatureRow domain 1).
Proof.
  intro H. unfold build_model_ready_url_features. rewrite H. reflexivity.
Qed.

Lemma predict_url_from_features_returns (g : globals) (row : feature_row) :
  exists r, predict_url_from_features g row = Returns r.
Proof.
  unfold predict_url_from_features.
  destruct (url_model g) as [model|]; [|eexists; reflexivity].
  destruct (model row) as [p|]; simpl.
  - destruct (Py.ltb p 0.5); eexists; reflexivity.
  - eexists; reflexivity.
Qed.

Lemma predict_url_returns (g : globals) (url : string) :
  exists r, predict_url urlparse g url = Returns r.
Proof.
  destruct (parse_domain_returns url) as (domain & Hd).
  unfold predict_url. rewrite Hd. simpl.
  destruct (is_known_safe_domain g domain); [eexists; reflexivity|].
  rewrite (build_features_equation _ _ Hd). simpl.
  destruct (predict_url_from_features_returns g (FeatureRow domain 1)) as (r & Hr).
  rewrite Hr. simpl. eexists; reflexivity.
Qed.

Lemma for_each_returns {A B : Type} (f : A -> outcome B) (l : list A) :
  (forall a, exists b, f a = Returns b) ->
  exists bs, for_each f l = Returns bs.
Proof.
  intro Hf. induction l as [|a l IH]; simpl.
  - eexists; reflexivity.
  - destruct (Hf a) as (b & Hb). destruct IH as (bs & Hbs).
    rewrite Hb, Hbs. simpl. eexists; reflexivity.
Qed.

Lemma predict_urls_in_text_returns (g : globals) (t : string) :
  exists rs, predict_urls_in_text urlparse g t = Returns rs.
Proof.
  unfold predict_urls_in_text. apply for_each_returns.
  intro url. apply predict_url_returns.
Qed.

(** C2. For a URL whose domain is whitelisted, the URL classifier returns
    label Safe URL, binary_pred 0 and confidence 0.98, whichever model is
    loaded (none, one that answers, one that raises). *)
Theorem C2_whitelist_precedence (g : globals) (url domain : string) :
  parse_domain_and_path urlparse url = Returns (domain, "", "") ->
  is_known_safe_domain g domain = true ->
  forall model,
    predict_url urlparse (Globals (EMAIL_UNSAFE_PHRASES g) (SAFE_URLS g) model) url
    = Returns (UrlResult (Some url) "Safe URL" 0 0.98).
Proof.
  intros Hd Hsafe model.
  unfold predict_url. rewrite Hd. simpl.
  unfold is_known_safe_domain in *. simpl. rewrite Hsafe. reflexivity.
Qed.

(** C6. For a URL whose domain is not whitelisted: without a loaded model
    the classifier returns exactly label Suspicious URL, binary_pred -1 and
    confidence 0.5; with a loaded model whose invocation raises, the call
    still returns a result, with confidence 0.5. *)
Theorem C6_no_model_and_failing_model (g : globals) (url domain : string) :
  parse_domain_and_path urlparse url = Returns (domain, "", "") ->
  is_known_safe_domain g domain = false ->
  (url_model g = None ->
   predict_url urlparse g url = Returns (UrlResult (Some url) "Suspicious URL" (-1) 0.5))
  /\ (forall model,
         url_model g = Some model ->
         model (FeatureRow domain 1) = Raises ->
         exists r, predict_url urlparse g url = Returns r
                   /\ u_url r = Some url /\ u_confidence r = 0.5%Q).
Proof.
  intros Hd Hsafe. split.
  - intro Hnone. unfold predict_url. rewrite Hd. simpl. rewrite Hsafe.
    rewrite (build_features_equation _ _ Hd). simpl.
    unfold predict_url_from_features. rewrite Hnone. reflexivity.
  - intros model Hsome Hraise. unfold predict_url. rewrite Hd. simpl. rewrite Hsafe.
    rewrite (build_features_equation _ _ Hd). simpl.
    unfold predict_url_from_features. rewrite Hsome, Hraise. simpl.
    eexists. split; [reflexivity|]. split; reflexivity.
Qed.

(** C10. For a URL whose domain is not whitelisted, when the loaded model
    raises, the fallback probability 0.5 is not below 0.5: the result is
    label Phishing URL, binary_pred 1, confidence 0.5. *)
Theorem C10_failing_model_is_phishing (g : globals) (url domain : string)
    (model : feature_row -> outcome Q) :
  parse_domain_and_path urlparse url = Returns (domain, "", "") ->
  is_known_safe_domain g domain = false ->
  url_model g = Some model ->
  model (FeatureRow domain 1) = Raises ->
  predict_url urlparse g url = Returns (UrlResult (Some url) "Phishing URL" 1 0.5).
Proof.
  intros Hd Hsafe Hsome Hraise.
  unfold predict_url. rewrite Hd. simpl. rewrite Hsafe.
  rewrite (build_features_equation _ _ Hd). simpl.
  unfold predict_url_from_features. rewrite Hsome, Hraise. reflexivity.
Qed.

End UrlClassifierFacts.

Lemma C2_whitelist_precedence_witness :
  predict_url UrlLib.urlparse Demo.sure_model "http://paypal.com/login"
  = Returns (UrlResult (Some "http://paypal.com/login") "Safe URL" 0 0.98).
Proof.
  apply (C2_whitelist_precedence UrlLib.urlparse Demo.no_model
           "http://paypal.com/login" "paypal.com");
    vm_compute; reflexivity.
Defined.

Lemma C6_no_model_and_failing_model_witness :
  predict_url UrlLib.urlparse Demo.no_model "http://evil.example/x"
  = Returns (UrlResult (Some "http://evil.example/x") "Suspicious URL" (-1) 0.5)
  /\ exists r,
       predict_url UrlLib.urlparse Demo.failing_model "http://evil.example/x" = Returns r
       /\ u_url r = Some "http://evil.example/x" /\ u_confidence r = 0.5%Q.
Proof.
  split.
  - apply (C6_no_model_and_failing_model UrlLib.urlparse Demo.no_model
             "http://evil.example/x" "evil.example");
      vm_compute; reflexivity.
  - apply (proj2 (C6_no_model_and_failing_model UrlLib.urlparse Demo.failing_model
                    "http://evil.example/x" "evil.example" eq_refl eq_refl)
                 (fun _ => Raises));
      reflexivity.
Defined.

Lemma C10_failing_model_is_phishing_witness :
  predict_url UrlLib.urlparse Demo.failing_model "http://evil.example/x"
  = Returns (UrlResult (Some "http://evil.example/x") "Phishing URL" 1 0.5).
Proof.
  apply (C10_failing_model_is_phishing UrlLib.urlparse Demo.failing_model
           "http://evil.example/x" "evil.example" (fun _ => Raises));
    vm_compute; reflexivity.
Defined.

(* ===================================================================== *)
(** * Hybrid fuser *)
(* ===================================================================== *)

Section HybridFacts.

Variable urlparse : string -> outcome parse_result.

(** The email branch of the fuser always returns; after a rule match it is
    the synthesized result with binary_pred 1. *)
Lemma hybrid_email_branch_returns (g : globals) (t : string) :
  exists email_res,
    match check_email_unsafe_by_rules g t with
    | _ :: _ =>
        features <- extract_email_meta_features g [t] ;;
        meta <- index features 0 ;;
        Returns (EmailResult "Phishing Email" 0.98 9.6 1 (meta_dict_of meta))
    | [] => predict_email_with_model g t
    end = Returns email_res
    /\ (check_email_unsafe_by_rules g t <> [] -> e_binary_pred email_res = 1%Z).
Proof.
  destruct (check_email_unsafe_by_rules g t) as [|p ps] eqn:Hm.
  - destruct (predict_email_equation g t) as (m & _ & Heq).
    eexists. split; [exact Heq|]. congruence.
  - destruct (extract_singleton g t) as (m & He & _).
    rewrite He. simpl. eexists. split; [reflexivity|]. reflexivity.
Qed.

(** C3. When the list of per-URL results of the text holds a result
    labelled Safe URL, the fuser returns final_label Safe Content,
    final_proba 0.98 and final_binary_pred 0 with that list as url_branch,
    also when the email branch has binary_pred 1 (which it has after
    every rule match). *)
Theorem C3_safe_url_override (g : globals) (t : string) (urls : list url_result) :
  predict_urls_in_text urlparse g t = Returns urls ->
  (exists u, In u urls /\ u_label u = "Safe URL") ->
  exists email_res,
    hybrid_predict urlparse g t
    = Returns (HybridResult "Safe Content" 0.98 0 email_res urls)
    /\ (check_email_unsafe_by_rules g t <> [] -> e_binary_pred email_res = 1%Z).
Proof.
  intros Hurls (u & Hin & Hlabel).
  destruct (hybrid_email_branch_returns g t) as (email_res & He & Hb).
  exists email_res. split; [|exact Hb].
  unfold hybrid_predict. rewrite He. simpl. rewrite Hurls. simpl.
  assert (Hex : existsb (fun u => String.eqb (u_label u) "Safe URL") urls = true).
  { apply existsb_exists. exists u. split; [exact Hin|].
    rewrite Hlabel. reflexivity. }
  rewrite Hex. reflexivity.
Qed.

End HybridFacts.

Lemma C3_safe_url_override_witness :
  exists email_res,
    hybrid_predict UrlLib.urlparse Demo.no_model
      "URGENT: verify at http://paypal.com/login now"
    = Returns (HybridResult "Safe Content" 0.98 0 email_res
                 [UrlResult (Some "http://paypal.com/login") "Safe URL" 0 0.98])
    /\ e_binary_pred email_res = 1%Z.
Proof.
  destruct (C3_safe_url_override UrlLib.urlparse Demo.no_model
              "URGENT: verify at http://paypal.com/login now"
              [UrlResult (Some "http://paypal.com/login") "Safe URL" 0 0.98])
    as (email_res & Hh & Hb).
  - vm_compute. reflexivity.
  - eexists. split; [left; reflexivity|reflexivity].
  - exists email_res. split; [exact Hh|].
    apply Hb. vm_compute. discriminate.
Defined.

(* ===================================================================== *)
(** * Explanation generator: the confidence line *)
(* ===================================================================== *)

Lemma confidence_tier_cases (c : Q) :
  (confidence_tier c = High <-> (0.9 < c)%Q)
  /\ (confidence_tier c = Moderate <-> (0.7 < c)%Q /\ (c <= 0.9)%Q)
  /\ (confidence_tier c = Lower <-> (c <= 0.7)%Q).
Proof.
  unfold confidence_tier.
  destruct (Py.gtb c 0.9) eqn:E9; destruct (Py.gtb c 0.7) eqn:E7;
    try apply gtb_true in E9; try apply gtb_false in E9;
    try apply gtb_true in E7; try apply gtb_false in E7;
    repeat split; intros; try discriminate; try lra;
    try (exfalso; lra); try tauto.
Qed.

(** C7 (as the code has it). The last explanation is always the confidence
    line; its value is the probability entry if present, else the
    confidence entry, else the final_proba entry, else 0; its tier is High
    when the value is above 0.9, Moderate when it is above 0.7 and at most
    0.9, Lower when it is at most 0.7. *)
Theorem C7_confidence_line (mode : string) (result : verdict) (input_text : string)
    (meta_features : option meta_dict) :
  exists t c,
    last (generate_ai_explanation mode result input_text meta_features) EmailNote
    = ConfidenceLine t c
    /\ c = match v_probability result, v_confidence result, v_final_proba result with
           | Some p, _, _ => p
           | None, Some q, _ => q
           | None, None, Some f => f
           | None, None, None => 0%Q
           end
    /\ (t = High <-> (0.9 < c)%Q)
    /\ (t = Moderate <-> (0.7 < c)%Q /\ (c <= 0.9)%Q)
    /\ (t = Lower <-> (c <= 0.7)%Q).
Proof.
  exists (confidence_tier (confidence_of result)), (confidence_of result).
  split.
  { unfold generate_ai_explanation. apply last_last. }
  split.
  { unfold confidence_of, get.
    destruct (v_probability result), (v_confidence result), (v_final_proba result);
      reflexivity. }
  apply confidence_tier_cases.
Qed.

(** C7 as stated fails at a verdict whose probability is exactly 0.9: the
    value is at least 0.9, yet the line is the Moderate one. *)
Lemma C7_counterexample :
  (0.9 <= confidence_of (Verdict (Some 1%Z) (Some 0.9%Q) None None None None None))%Q
  /\ Spec.confidence_tier 0.9 = High
  /\ last (generate_ai_explanation "email"
             (Verdict (Some 1%Z) (Some 0.9%Q) None None None None None)
             "please verify" None) EmailNote
     = ConfidenceLine Moderate 0.9.
Proof.
  split; [vm_compute; discriminate|]. split; reflexivity.
Qed.

(* ===================================================================== *)
(** * Domain whitelist *)
(* ===================================================================== *)

Lemma endswith_iff (s suf : string) :
  Py.endswith s suf = true <-> exists p, s = p ++ suf.
Proof.
  induction s as [|c s IH]; cbn [Py.endswith].
  - rewrite orb_false_r, String.eqb_eq. split.
    + intros <-. exists EmptyString. reflexivity.
    + intros (p & Hp). destruct p; simpl in Hp; [exact Hp|discriminate].
  - rewrite orb_true_iff, String.eqb_eq, IH. split.
    + intros [<-|(p & ->)].
      * exists EmptyString. reflexivity.
      * exists (String c p). reflexivity.
    + intros (p & Hp). destruct p as [|c' p]; simpl in Hp.
      * left. exact Hp.
      * right. injection Hp as _ ->. exists p. reflexivity.
Qed.

Lemma any_safe_entry_iff (d : string) (safe : list string) :
  any_safe_entry d safe = true
  <-> exists s, In s safe /\ (d = s \/ exists p, d = p ++ "." ++ s).
Proof.
  induction safe as [|s safe IH]; cbn [any_safe_entry].
  - split; [discriminate|]. intros (s & [] & _).
  - destruct (String.eqb d s || Py.endswith d ("." ++ s)) eqn:E.
    + split; [|reflexivity]. intros _. exists s. split; [left; reflexivity|].
      apply orb_true_iff in E. destruct E as [E|E].
      * left. apply String.eqb_eq. exact E.
      * right. apply endswith_iff. exact E.
    + rewrite IH. split.
      * intros (s' & Hin & H). exists s'. split; [right; exact Hin|exact H].
      * intros (s' & [<-|Hin] & H).
        -- exfalso. apply orb_false_iff in E. destruct E as [E1 E2].
           destruct H as [H|H].
           ++ apply String.eqb_eq in H. congruence.
           ++ apply endswith_iff in H. congruence.
        -- exists s'. split; assumption.
Qed.

Lemma split_head_app_colon (d rest : string) :
  Py.split_head ":"%char (d ++ ":" ++ rest) = Py.split_head ":"%char d.
Proof.
  induction d as [|c d IH]; [reflexivity|].
  change (String c d ++ ":" ++ rest) with (String c (d ++ ":" ++ rest)).
  cbn [Py.split_head].
  destruct (Ascii.eqb c ":"%char); [reflexivity|]. rewrite IH. reflexivity.
Qed.

Lemma lower_char_colon (c : ascii) :
  Ascii.eqb (Py.lower_char c) ":"%char = Ascii.eqb c ":"%char.
Proof.
  destruct c as [[] [] [] [] [] [] [] []]; reflexivity.
Qed.

Lemma lower_char_idempotent (c : ascii) :
  Py.lower_char (Py.lower_char c) = Py.lower_char c.
Proof.
  destruct c as [[] [] [] [] [] [] [] []]; reflexivity.
Qed.

Lemma lower_split_head (d : string) :
  Py.lower (Py.split_head ":"%char (Py.lower d))
  = Py.lower (Py.split_head ":"%char d).
Proof.
  induction d as [|c d IH]; simpl.
  - reflexivity.
  - rewrite lower_char_colon.
    destruct (Ascii.eqb c ":"%char); [reflexivity|].
    simpl. rewrite lower_char_idempotent, IH. reflexivity.
Qed.

Lemma split_head_in_words (s : string) :
  Py.split_head ":"%char s = SpecDomain.before_first_colon s.
Proof.
  unfold SpecDomain.before_first_colon.
  induction s as [|c s IH]; cbn [Py.split_head list_ascii_of_string
                                  SpecDomain.take_while]; [reflexivity|].
  unfold SpecDomain.not_colon at 1.
  destruct (Ascii.eqb c ":"%char); cbn [negb string_of_list_ascii]; [reflexivity|].
  rewrite IH. reflexivity.
Qed.

Lemma lower_in_words (s : string) : Py.lower s = SpecDomain.lower_cased s.
Proof.
  unfold SpecDomain.lower_cased.
  induction s as [|c s IH]; cbn [Py.lower list_ascii_of_string map string_of_list_ascii];
    [reflexivity|].
  rewrite IH. reflexivity.
Qed.

Lemma lstrip_in_words (s : string) :
  list_ascii_of_string (Py.lstrip s)
  = SpecDomain.drop_while Py.isspace (list_ascii_of_string s).
Proof.
  induction s as [|c s IH]; cbn [Py.lstrip list_ascii_of_string SpecDomain.drop_while];
    [reflexivity|].
  destruct (Py.isspace c); [exact IH|reflexivity].
Qed.

Lemma drop_while_app (p : ascii -> bool) (a b : list ascii) :
  SpecDomain.drop_while p (a ++ b)
  = match SpecDomain.drop_while p a with
    | [] => SpecDomain.drop_while p b
    | r => (r ++ b)%list
    end.
Proof.
  induction a as [|c a IH]; cbn [app SpecDomain.drop_while]; [|destruct (p c)].
  - destruct (SpecDomain.drop_while p b); reflexivity.
  - exact IH.
  - reflexivity.
Qed.

Lemma rstrip_in_words (s : string) :
  list_ascii_of_string (Py.rstrip s)
  = rev (SpecDomain.drop_while Py.isspace (rev (list_ascii_of_string s))).
Proof.
  induction s as [|c s IH]; [reflexivity|].
  cbn [Py.rstrip list_ascii_of_string rev]. rewrite drop_while_app.
  destruct (Py.rstrip s) as [|c' r] eqn:E.
  - cbn [list_ascii_of_string] in IH.
    destruct (SpecDomain.drop_while Py.isspace (rev (list_ascii_of_string s)))
      as [|x xs] eqn:D.
    + cbn [SpecDomain.drop_while]. destruct (Py.isspace c); reflexivity.
    + exfalso. apply (f_equal (@List.length ascii)) in IH.
      rewrite length_rev in IH. discriminate IH.
  - destruct (SpecDomain.drop_while Py.isspace (rev (list_ascii_of_string s)))
      as [|x xs] eqn:D.
    + discriminate IH.
    + rewrite rev_app_distr. change (rev [c]) with [c]. rewrite <- IH.
      reflexivity.
Qed.

Lemma strip_in_words (s : string) : Py.strip s = SpecDomain.without_surrounding_space s.
Proof.
  unfold Py.strip, SpecDomain.without_surrounding_space.
  rewrite <- lstrip_in_words, <- rstrip_in_words.
  symmetry. apply string_of_list_ascii_of_string.
Qed.

Lemma www_in_words (d : string) :
  (if Py.startswith d "www." then Py.drop 4 d else d)
  = SpecDomain.without_leading_www d.
Proof.
  unfold Py.startswith, SpecDomain.without_leading_www.
  destruct d as [|c1 d]; [reflexivity|].
  destruct c1 as [[] [] [] [] [] [] [] []]; try reflexivity.
  destruct d as [|c2 d]; [reflexivity|].
  destruct c2 as [[] [] [] [] [] [] [] []]; try reflexivity.
  destruct d as [|c3 d]; [reflexivity|].
  destruct c3 as [[] [] [] [] [] [] [] []]; try reflexivity.
  destruct d as [|c4 d]; [reflexivity|].
  destruct c4 as [[] [] [] [] [] [] [] []]; try reflexivity.
  cbn. destruct d; reflexivity.
Qed.

(** The normalization of the code is the one described in words. *)
Lemma normalize_in_words (domain : string) :
  normalize_domain_for_check domain = SpecDomain.normalize_domain domain.
Proof.
  unfold normalize_domain_for_check, SpecDomain.normalize_domain.
  rewrite www_in_words, strip_in_words, lower_in_words, split_head_in_words.
  reflexivity.
Qed.

(** C5 (as the code has it). Membership is decided on the normalized
    domain, which is the text before the first colon, lower-cased, with the
    white space at both ends removed and then one leading [www.] removed
    (the normalization of the code equals the one written out in
    [SpecDomain]); it holds exactly when the normalized domain equals a
    trusted entry or ends with a dot followed by one. Whatever follows any
    colon of the query is ignored, and so is the case of the query. With
    the entry bank.com, sub.bank.com is whitelisted and fakebank.com is
    not. *)
Theorem C5_whitelist_membership (g : globals) (domain : string) :
  normalize_domain_for_check domain = SpecDomain.normalize_domain domain
  /\ (is_known_safe_domain g domain = true
      <-> exists s, In s (SAFE_URLS g)
                    /\ (SpecDomain.normalize_domain domain = s
                        \/ exists p, SpecDomain.normalize_domain domain = p ++ "." ++ s))
  /\ (is_known_safe_domain g domain = true
      <-> exists s, In s (SAFE_URLS g)
                    /\ (normalize_domain_for_check domain = s
                        \/ exists p, normalize_domain_for_check domain = p ++ "." ++ s))
  /\ (forall rest,
         normalize_domain_for_check (domain ++ ":" ++ rest)
         = normalize_domain_for_check domain)
  /\ normalize_domain_for_check (Py.lower domain) = normalize_domain_for_check domain
  /\ normalize_domain_for_check " WWW.Bank.com:80:90" = "bank.com"
  /\ normalize_domain_for_check "www.www.bank.com" = "www.bank.com"
  /\ normalize_domain_for_check "wiki.bank.com " = "wiki.bank.com"
  /\ is_known_safe_domain (Globals [] ["bank.com"] None) "sub.bank.com" = true
  /\ is_known_safe_domain (Globals [] ["bank.com"] None) "fakebank.com" = false.
Proof.
  split; [apply normalize_in_words|].
  split.
  { rewrite <- normalize_in_words. apply any_safe_entry_iff. }
  split; [apply any_safe_entry_iff|].
  split.
  { intro rest. unfold normalize_domain_for_check.
    rewrite split_head_app_colon. reflexivity. }
  split.
  { unfold normalize_domain_for_check. rewrite lower_split_head. reflexivity. }
  repeat split; reflexivity.
Qed.

(** C5 as stated fails on a domain with two colons: stripping the text
    after the last colon leaves [bank.com:80], which is no trusted entry,
    while the code keeps [bank.com] and answers true. *)
Lemma C5_counterexample :
  Spec.normalize_domain "bank.com:80:90" = "bank.com:80"
  /\ Spec.is_safe_domain ["bank.com"] "bank.com:80:90" = false
  /\ is_known_safe_domain (Globals [] ["bank.com"] None) "bank.com:80:90" = true.
Proof.
  repeat split; reflexivity.
Qed.

(* ===================================================================== *)
(** * URL count *)
(* ===================================================================== *)

(** Two occurrences of the tokens never overlap: inside a match no other
    match starts. *)
Lemma tokens_do_not_overlap (t : string) (n k : nat) :
  url_token_len t = Some n ->
  (0 < k < n)%nat ->
  url_token_len (Py.drop k t) = None.
Proof.
  unfold url_token_len at 1. intros H Hk.
  destruct (String.prefix "http://" t) eqn:E1.
  { injection H as <-. read_prefix E1 t.
    do 7 (destruct k as [|k]; [try lia; reflexivity|]). lia. }
  destruct (String.prefix "https://" t) eqn:E2.
  { injection H as <-. clear E1. read_prefix E2 t.
    do 8 (destruct k as [|k]; [try lia; reflexivity|]). lia. }
  destruct (String.prefix "www." t) eqn:E3; [|discriminate H].
  injection H as <-. clear E1 E2. read_prefix E3 t.
  do 4 (destruct k as [|k]; [try lia; reflexivity|]). lia.
Qed.

Lemma token_at_url_token_len (t : string) :
  Spec.token_at t = match url_token_len t with Some _ => true | None => false end.
Proof.
  unfold Spec.token_at, url_token_len.
  destruct (String.prefix "http://" t), (String.prefix "https://" t),
    (String.prefix "www." t); reflexivity.
Qed.

Lemma findall_count_skip (t : string) (skip : nat) :
  findall_count skip t = findall_count 0 (Py.drop skip t).
Proof.
  revert skip. induction t as [|c t IH]; intros [|k]; try reflexivity.
  cbn [findall_count Py.drop]. apply IH.
Qed.

Lemma occurrences_drop (m : nat) (s : string) :
  (forall k, (k < m)%nat -> url_token_len (Py.drop k s) = None) ->
  Spec.occurrences s = Spec.occurrences (Py.drop m s).
Proof.
  revert s. induction m as [|m IH]; intros s H; [reflexivity|].
  destruct s as [|c s]; [reflexivity|].
  cbn [Spec.occurrences Py.drop].
  pose proof (H 0%nat ltac:(lia)) as H0. cbn [Py.drop] in H0.
  rewrite token_at_url_token_len, H0. simpl Nat.add.
  apply IH. intros k Hk. apply (H (S k)). lia.
Qed.

Lemma drop_length (k : nat) (s : string) :
  (String.length (Py.drop k s) <= String.length s)%nat.
Proof.
  revert s. induction k as [|k IH]; intros [|c s]; simpl; try lia.
  specialize (IH s). lia.
Qed.

Lemma findall_count_occurrences (t : string) :
  findall_count 0 t = Spec.occurrences t.
Proof.
  remember (String.length t) as n eqn:Hn.
  assert (Hle : (String.length t <= n)%nat) by lia. clear Hn.
  revert t Hle. induction n as [|n IH]; intros [|c t] Hle; try reflexivity.
  { simpl in Hle. lia. }
  cbn [findall_count Spec.occurrences].
  simpl in Hle. rewrite token_at_url_token_len.
  destruct (url_token_len (String c t)) as [len|] eqn:E.
  - rewrite findall_count_skip, IH
      by (pose proof (drop_length (Nat.pred len) t); lia).
    rewrite (occurrences_drop (Nat.pred len) t); [reflexivity|].
    intros k Hk.
    change (Py.drop k t) with (Py.drop (S k) (String c t)).
    apply (tokens_do_not_overlap _ len); [exact E|lia].
  - rewrite IH by lia. reflexivity.
Qed.

(** C8 (as the code has it). The url_count meta-feature is the number of
    positions of the text at which [http://], [https://] or [www.] starts,
    the letters compared as written (lower case only); occurrences of
    these tokens never overlap, so none is counted twice and none is
    missed. *)
Theorem C8_url_count (g : globals) (t : string) :
  exists m,
    extract_email_meta_features g [t] = Returns [m]
    /\ m_num_urls m = Py.of_nat (Spec.occurrences t)
    /\ forall i n k,
         url_token_len (Py.drop i t) = Some n ->
         (0 < k < n)%nat ->
         Spec.token_at (Py.drop k (Py.drop i t)) = false.
Proof.
  destruct (meta_features_of_returns g t) as (dr & ur & Hm & _).
  eexists. split.
  { unfold extract_email_meta_features. simpl. rewrite Hm. reflexivity. }
  cbn [m_num_urls]. split.
  - rewrite findall_count_occurrences. reflexivity.
  - intros i n k Hn Hk. rewrite token_at_url_token_len.
    rewrite (tokens_do_not_overlap _ n k Hn Hk). reflexivity.
Qed.

Lemma C8_url_count_witness :
  exists m,
    extract_email_meta_features Demo.no_model ["see http://a.b and www.c.d"]
    = Returns [m]
    /\ m_num_urls m = Py.of_nat 2
    /\ Spec.token_at (Py.drop 3 (Py.drop 4 "see http://a.b and www.c.d")) = false.
Proof.
  destruct (C8_url_count Demo.no_model "see http://a.b and www.c.d")
    as (m & Hm & Hn & Ho).
  exists m. split; [exact Hm|]. split; [exact Hn|].
  apply (Ho 4%nat 7%nat 3%nat); [reflexivity|lia].
Defined.

(** C8 as stated fails on upper-case tokens: [HTTP://] and [WWW.] are two
    occurrences when case is ignored, and the code counts none. *)
Lemma C8_counterexample :
  Spec.occurrences_ignoring_case "HTTP://a WWW.b" = 2%nat
  /\ exists m,
       extract_email_meta_features Demo.no_model ["HTTP://a WWW.b"] = Returns [m]
       /\ m_num_urls m = 0%Q.
Proof.
  split; [reflexivity|].
  eexists. split; [vm_compute; reflexivity|reflexivity].
Qed.

(* ===================================================================== *)
(** * Rule matcher and email classifier: further properties *)
(* ===================================================================== *)

Lemma prefix_iff (p s : string) :
  String.prefix p s = true <-> exists b, s = p ++ b.
Proof.
  revert s. induction p as [|a p IH]; intro s.
  - destruct s; simpl; split; intro; try reflexivity; eexists; reflexivity.
  - destruct s as [|c s]; simpl.
    + split; [discriminate|]. intros (b & Hb). discriminate Hb.
    + destruct (Ascii.ascii_dec a c) as [<-|Hne].
      * rewrite IH. split.
        -- intros (b & ->). exists b. reflexivity.
        -- intros (b & Hb). injection Hb as ->. exists b. reflexivity.
      * split; [discriminate|]. intros (b & Hb). injection Hb as ->. congruence.
Qed.

(** [p in s] holds exactly when [p] is a contiguous part of [s]. *)
Lemma contains_iff (p s : string) :
  Py.contains p s = true <-> exists a b, s = a ++ p ++ b.
Proof.
  induction s as [|c s IH]; cbn [Py.contains].
  - rewrite orb_false_r, prefix_iff. split.
    + intros (b & Hb). exists EmptyString, b. exact Hb.
    + intros (a & b & H). destruct a; simpl in H; [exists b; exact H|discriminate].
  - rewrite orb_true_iff, prefix_iff, IH. split.
    + intros [(b & Hb)|(a & b & ->)].
      * exists EmptyString, b. exact Hb.
      * exists (String c a), b. reflexivity.
    + intros (a & b & H). destruct a as [|c' a]; simpl in H.
      * left. exists b. exact H.
      * right. injection H as _ ->. exists a, b. reflexivity.
Qed.

Lemma lower_idempotent (s : string) : Py.lower (Py.lower s) = Py.lower s.
Proof.
  induction s as [|c s IH]; simpl; [reflexivity|].
  rewrite lower_char_idempotent, IH. reflexivity.
Qed.

Lemma check_rules_filter (g : globals) (t : string) :
  check_email_unsafe_by_rules g t
  = filter (fun p => Py.contains p (Py.lower t)) (EMAIL_UNSAFE_PHRASES g).
Proof.
  unfold check_email_unsafe_by_rules.
  destruct (EMAIL_UNSAFE_PHRASES g); reflexivity.
Qed.

(** X1. The rule matcher returns exactly the phrases of the store that occur
    as a contiguous part of the lower-cased text, and lowering the text
    beforehand changes nothing: matching is blind to the case of the text
    (not to that of the phrases). *)
Theorem rule_matcher_characterization (g : globals) (t p : string) :
  (In p (check_email_unsafe_by_rules g t)
   <-> In p (EMAIL_UNSAFE_PHRASES g) /\ exists a b, Py.lower t = a ++ p ++ b)
  /\ check_email_unsafe_by_rules g (Py.lower t) = check_email_unsafe_by_rules g t.
Proof.
  split.
  - rewrite check_rules_filter, filter_In, contains_iff. reflexivity.
  - rewrite !check_rules_filter, lower_idempotent. reflexivity.
Qed.

(** X2. The [num_urgent] entry of the feature row is the number of phrases
    returned by the rule matcher: the rule branch of the classifier is
    taken exactly when that entry is positive. *)
Theorem urgent_count_is_rule_matches (g : globals) (t : string) :
  exists m,
    extract_email_meta_features g [t] = Returns [m]
    /\ m_num_urgent m = Py.of_nat (List.length (check_email_unsafe_by_rules g t))
    /\ (check_email_unsafe_by_rules g t <> [] <-> (0 < m_num_urgent m)%Q).
Proof.
  destruct (meta_features_of_returns g t) as (dr & ur & Hm & _).
  eexists. split.
  { unfold extract_email_meta_features. simpl. rewrite Hm. reflexivity. }
  cbn [m_num_urgent]. rewrite check_rules_filter.
  split; [reflexivity|].
  destruct (filter _ (EMAIL_UNSAFE_PHRASES g)) as [|p ps]; simpl.
  - split; [congruence|]. intro H. discriminate H.
  - split; [|discriminate]. intros _. apply of_nat_pos. simpl. lia.
Qed.

Lemma suspicious_score_cases (m : meta_row) :
  let d := (0.15 < m_digit_ratio m)%Q in
  let u := (0.2 < m_upper_ratio m)%Q in
  let x := (3 < m_num_exclam m)%Q in
  let l := (2 < m_num_urls m)%Q in
  Py.gtb (suspicious_score_of m) 0.4 = true
  <-> (l /\ (d \/ u)) \/ (d /\ u /\ x).
Proof.
  unfold suspicious_score_of.
  destruct (Py.gtb (m_digit_ratio m) 0.15) eqn:E1;
  destruct (Py.gtb (m_upper_ratio m) 0.2) eqn:E2;
  destruct (Py.gtb (m_num_exclam m) 3) eqn:E3;
  destruct (Py.gtb (m_num_urls m) 2) eqn:E4;
  try apply gtb_true in E1; try apply gtb_false in E1;
  try apply gtb_true in E2; try apply gtb_false in E2;
  try apply gtb_true in E3; try apply gtb_false in E3;
  try apply gtb_true in E4; try apply gtb_false in E4;
  cbv zeta; (split; [intro H; vm_compute in H; try discriminate H; tauto
                    | intro H; try reflexivity; exfalso;
                      destruct H as [[? [?|?]]|[? [? ?]]]; lra]).
Qed.

(** X3. Without a rule match the verdict is decided by the four signals
    (digit ratio above 0.15, upper-case ratio above 0.20, more than 3
    exclamation marks, more than 2 URL tokens): the email is phishing
    exactly when the URL signal fires together with one of the two ratio
    signals, or the three other signals fire together. No single signal is
    enough, nor are the two ratio signals together (0.40), nor the URL and
    the exclamation signals together (0.40). *)
Theorem heuristic_decision_table (g : globals) (t : string) (r : email_result) :
  check_email_unsafe_by_rules g t = [] ->
  predict_email_with_model g t = Returns r ->
  let d := (0.15 < digit_ratio (e_meta r))%Q in
  let u := (0.2 < upper_ratio (e_meta r))%Q in
  let x := (3 < num_exclam (e_meta r))%Q in
  let l := (2 < num_urls (e_meta r))%Q in
  (e_binary_pred r = 1%Z <-> (l /\ (d \/ u)) \/ (d /\ u /\ x))
  /\ (e_binary_pred r = 1%Z /\ e_label r = "Phishing Email"
      \/ e_binary_pred r = 0%Z /\ e_label r = "Safe Email").
Proof.
  intros Hm Hr.
  destruct (predict_email_equation g t) as (m & _ & Heq).
  rewrite Heq, Hm in Hr. injection Hr as <-.
  pose proof (suspicious_score_cases m) as Hc. cbv zeta in Hc.
  destruct (Py.gtb (suspicious_score_of m) 0.4) eqn:E;
    cbn [e_binary_pred e_label e_meta meta_dict_of digit_ratio upper_ratio
         num_exclam num_urls]; cbv zeta.
  - split; [|left; split; reflexivity].
    split; [intros _; apply Hc; reflexivity|reflexivity].
  - split; [|right; split; reflexivity].
    split; [discriminate|]. intro H. apply Hc in H. discriminate H.
Qed.

Lemma heuristic_decision_table_witness :
  exists r,
    predict_email_with_model Demo.no_phrases "www.AA www.BB www.CC" = Returns r
    /\ e_binary_pred r = 1%Z.
Proof.
  eexists. split; [vm_compute; reflexivity|].
  apply (heuristic_decision_table Demo.no_phrases "www.AA www.BB www.CC");
    [reflexivity|vm_compute; reflexivity|].
  left. split; [|right]; vm_compute; reflexivity.
Defined.

Lemma contains_in_empty (p : string) :
  Py.contains p EmptyString = true <-> p = EmptyString.
Proof.
  destruct p; simpl; split; intro H; try reflexivity; discriminate H.
Qed.

(** The empty text is matched by the empty phrase only: its verdict is
    phishing when the store holds the empty phrase, and Safe Email with
    probability 0.1 otherwise. *)
Lemma empty_text_cases (g : globals) :
  exists r,
    predict_email_with_model g EmptyString = Returns r
    /\ (In EmptyString (EMAIL_UNSAFE_PHRASES g) ->
        e_binary_pred r = 1%Z /\ e_label r = "Phishing Email")
    /\ (~ In EmptyString (EMAIL_UNSAFE_PHRASES g) ->
        e_binary_pred r = 0%Z /\ e_label r = "Safe Email"
        /\ (e_probability r == 0.1)%Q).
Proof.
  destruct (predict_email_equation g EmptyString) as (m & Hm & Heq).
  eexists. split; [exact Heq|].
  assert (Hmeta : exists k, m = MetaRow (Py.of_nat 0) (Py.of_nat 0 / Py.of_nat 1)
                                (Py.of_nat 0 / Py.of_nat 1) (Py.of_nat 0)
                                (Py.of_nat 0) k).
  { eexists. unfold meta_features_of in Hm. cbn in Hm.
    injection Hm as <-. reflexivity. }
  destruct Hmeta as (k & ->). clear Hm Heq.
  pose proof (check_rules_filter g EmptyString) as Hf.
  destruct (check_email_unsafe_by_rules g EmptyString) as [|p ps].
  - split.
    + intro Hin. exfalso.
      assert (Hin' : In EmptyString
                (filter (fun p => Py.contains p (Py.lower EmptyString))
                        (EMAIL_UNSAFE_PHRASES g))).
      { apply filter_In. split; [exact Hin|reflexivity]. }
      rewrite <- Hf in Hin'. destruct Hin'.
    + intros _. vm_compute. repeat split; reflexivity.
  - split.
    + intros _. split; reflexivity.
    + intro Hnot. exfalso. apply Hnot.
      assert (Hin : In p (filter (fun p => Py.contains p (Py.lower EmptyString))
                                 (EMAIL_UNSAFE_PHRASES g)))
        by (rewrite <- Hf; left; reflexivity).
      apply filter_In in Hin. destruct Hin as [Hin Hc].
      apply contains_in_empty in Hc. subst p. exact Hin.
Qed.

(* ===================================================================== *)
(** * Keyword store loader *)
(* ===================================================================== *)

Lemma isspace_lower_char (c : ascii) : Py.isspace (Py.lower_char c) = Py.isspace c.
Proof.
  destruct c as [[] [] [] [] [] [] [] []]; reflexivity.
Qed.

Lemma lstrip_lower (s : string) : Py.lstrip (Py.lower s) = Py.lower (Py.lstrip s).
Proof.
  induction s as [|c s IH]; simpl; [reflexivity|].
  rewrite isspace_lower_char. destruct (Py.isspace c); [exact IH|reflexivity].
Qed.

Lemma rstrip_lower (s : string) : Py.rstrip (Py.lower s) = Py.lower (Py.rstrip s).
Proof.
  induction s as [|c s IH]; simpl; [reflexivity|].
  rewrite IH, isspace_lower_char.
  destruct (Py.rstrip s); simpl; [destruct (Py.isspace c)|]; reflexivity.
Qed.

Lemma strip_lower (s : string) : Py.strip (Py.lower s) = Py.lower (Py.strip s).
Proof.
  unfold Py.strip. rewrite lstrip_lower, rstrip_lower. reflexivity.
Qed.

Lemma lstrip_head (s : string) :
  match Py.lstrip s with
  | EmptyString => True
  | String c _ => Py.isspace c = false
  end.
Proof.
  induction s as [|c s IH]; simpl; [exact I|].
  destruct (Py.isspace c) eqn:E; [exact IH|exact E].
Qed.

Lemma rstrip_idempotent (s : string) : Py.rstrip (Py.rstrip s) = Py.rstrip s.
Proof.
  induction s as [|c s IH]; simpl; [reflexivity|].
  destruct (Py.rstrip s) as [|c' r] eqn:E.
  - destruct (Py.isspace c) eqn:Ec; simpl; [reflexivity|]. rewrite Ec. reflexivity.
  - cbn [Py.rstrip]. cbn [Py.rstrip] in IH. rewrite IH. reflexivity.
Qed.

(** Stripping on the right keeps a first character that is no white
    space. *)
Lemma rstrip_keeps_head (c : ascii) (s : string) :
  Py.isspace c = false ->
  exists r, Py.rstrip (String c s) = String c r.
Proof.
  intro Hc. simpl. destruct (Py.rstrip s); [rewrite Hc|]; eexists; reflexivity.
Qed.

Lemma strip_idempotent (s : string) : Py.strip (Py.strip s) = Py.strip s.
Proof.
  unfold Py.strip.
  pose proof (lstrip_head s) as Hh.
  destruct (Py.lstrip s) as [|c x]; [reflexivity|].
  destruct (rstrip_keeps_head c x Hh) as (r & Hr).
  rewrite Hr. cbn [Py.lstrip]. rewrite Hh, <- Hr. apply rstrip_idempotent.
Qed.

Lemma set_add_in (x y : string) (s : list string) :
  In y (set_add x s) <-> y = x \/ In y s.
Proof.
  unfold set_add. destruct (existsb (String.eqb x) s) eqn:E.
  - split; [intro H; right; exact H|]. intros [->|H]; [|exact H].
    apply existsb_exists in E. destruct E as (z & Hz & Hxz).
    apply String.eqb_eq in Hxz. subst z. exact Hz.
  - rewrite in_app_iff. simpl. split.
    + intros [H|[H|[]]]; [right; exact H|left; symmetry; exact H].
    + intros [->|H]; [right; left; reflexivity|left; exact H].
Qed.

Lemma set_add_nodup (x : string) (s : list string) :
  NoDup s -> NoDup (set_add x s).
Proof.
  intro Hs. unfold set_add. destruct (existsb (String.eqb x) s) eqn:E; [exact Hs|].
  apply NoDup_app; [exact Hs|constructor; [intros []|constructor]|].
  intros y Hy [Hxy|[]]. subst y.
  assert (existsb (String.eqb x) s = true); [|congruence].
  apply existsb_exists. exists x. split; [exact Hy|apply String.eqb_refl].
Qed.

Lemma add_phrase_ok (phrases : list string) (v : json) :
  store_ok phrases -> store_ok (add_phrase phrases v).
Proof.
  intros [Hnd Hall]. unfold add_phrase.
  destruct v as [| | |s| |]; try (split; assumption).
  destruct (Py.strip s) as [|c x] eqn:E; [split; assumption|].
  split; [apply set_add_nodup; exact Hnd|].
  intros p Hp. apply set_add_in in Hp. destruct Hp as [->|Hp]; [|apply Hall; exact Hp].
  repeat split.
  - discriminate.
  - rewrite <- E, strip_lower, strip_idempotent. reflexivity.
  - apply lower_idempotent.
Qed.

Lemma fold_add_phrase_ok (vs : list json) (phrases : list string) :
  store_ok phrases -> store_ok (fold_left add_phrase vs phrases).
Proof.
  revert phrases. induction vs as [|v vs IH]; intros phrases H; simpl; [exact H|].
  apply IH, add_phrase_ok, H.
Qed.

Lemma add_categories_ok (cats : list (string * json)) (phrases out : list string) :
  store_ok phrases ->
  add_categories phrases cats = Returns out ->
  store_ok out.
Proof.
  revert phrases. induction cats as [|[c lst] cats IH]; intros phrases H Hout; simpl in Hout.
  - injection Hout as <-. exact H.
  - destruct (json_iter lst) as [ps|]; simpl in Hout; [|discriminate].
    apply (IH _ (fold_add_phrase_ok ps phrases H) Hout).
Qed.

Lemma loaded_store_ok (file : outcome json) :
  store_ok (snd (load_email_unsafe_keywords file)).
Proof.
  assert (Hempty : store_ok []) by (split; [constructor|intros p []]).
  unfold load_email_unsafe_keywords.
  destruct file as [data|]; cbn [bind try_except]; [|exact Hempty].
  destruct (json_get data "phishing_keywords" (JObject [])) as [pk|];
    cbn [bind try_except]; [|exact Hempty].
  destruct (json_items pk) as [cats|]; cbn [bind try_except]; [|exact Hempty].
  destruct (add_categories [] cats) as [phrases|] eqn:Ecats;
    cbn [bind try_except]; [|exact Hempty].
  destruct (json_get data "other_red_flags" (JArray [])) as [other|];
    cbn [bind try_except]; [|exact Hempty].
  destruct (json_iter other) as [ps|]; cbn [bind try_except snd]; [|exact Hempty].
  exact (fold_add_phrase_ok ps phrases (add_categories_ok _ _ _ Hempty Ecats)).
Qed.

(** X4. Whatever the keyword file holds, the loaded store has no duplicate and
    every phrase in it is non-empty, free of surrounding white space and in
    lower case; when the file cannot be read or parsed, or its content is
    no JSON object, both globals are reset to empty. *)
Theorem keyword_store_invariant (file : outcome json) :
  NoDup (snd (load_email_unsafe_keywords file))
  /\ (forall p, In p (snd (load_email_unsafe_keywords file)) ->
        p <> EmptyString /\ Py.strip p = p /\ Py.lower p = p)
  /\ (file = Raises -> load_email_unsafe_keywords file = (JObject [], []))
  /\ (forall v, file = Returns v ->
        (forall members, v <> JObject members) ->
        load_email_unsafe_keywords file = (JObject [], [])).
Proof.
  destruct (loaded_store_ok file) as [Hnd Hall].
  split; [exact Hnd|]. split; [exact Hall|]. split.
  - intros ->. reflexivity.
  - intros v -> Hno. unfold load_email_unsafe_keywords. cbn [bind try_except].
    destruct v; try reflexivity. exfalso. apply (Hno members). reflexivity.
Qed.

Lemma keyword_store_invariant_witness :
  load_email_unsafe_keywords (Returns (JArray [JString "verify"])) = (JObject [], []).
Proof.
  apply (proj2 (proj2 (proj2 (keyword_store_invariant
                                (Returns (JArray [JString "verify"])))))
               (JArray [JString "verify"]) eq_refl).
  intros members H. discriminate H.
Defined.

Lemma add_phrase_in (phrases : list string) (v : json) (p : string) :
  In p (add_phrase phrases v)
  <-> In p phrases
      \/ exists s, v = JString s /\ Py.strip s <> EmptyString
                   /\ p = Py.lower (Py.strip s).
Proof.
  unfold add_phrase. destruct v as [| | |s| |];
    try (split; [intro H; left; exact H|intros [H|(s' & Hs & _)]; [exact H|discriminate Hs]]).
  destruct (Py.strip s) as [|c x] eqn:E.
  - split; [intro H; left; exact H|].
    intros [H|(s' & Hs & Hne & _)]; [exact H|].
    injection Hs as <-. congruence.
  - rewrite set_add_in. split.
    + intros [->|H]; [right|left; exact H].
      exists s. rewrite E. repeat split. discriminate.
    + intros [H|(s' & Hs & _ & ->)]; [right; exact H|left].
      injection Hs as <-. rewrite E. reflexivity.
Qed.

Lemma fold_add_phrase_in (vs : list json) (phrases : list string) (p : string) :
  In p (fold_left add_phrase vs phrases)
  <-> In p phrases
      \/ exists s, In (JString s) vs /\ Py.strip s <> EmptyString
                   /\ p = Py.lower (Py.strip s).
Proof.
  revert phrases. induction vs as [|v vs IH]; intro phrases; simpl.
  - split; [intro H; left; exact H|]. intros [H|(s & [] & _)]. exact H.
  - rewrite IH, add_phrase_in. split.
    + intros [[H|(s & -> & Hne & Hp)]|(s & Hin & Hne & Hp)].
      * left. exact H.
      * right. exists s. repeat split; [left; reflexivity|exact Hne|exact Hp].
      * right. exists s. repeat split; [right; exact Hin|exact Hne|exact Hp].
    + intros [H|(s & [Hv|Hin] & Hne & Hp)].
      * left. left. exact H.
      * left. right. exists s. repeat split; [exact Hv|exact Hne|exact Hp].
      * right. exists s. repeat split; assumption.
Qed.

Lemma add_categories_arrays (cats : list (string * json)) (phrases : list string) :
  (forall c v, In (c, v) cats -> exists items, v = JArray items) ->
  exists out,
    add_categories phrases cats = Returns out
    /\ forall p,
         In p out
         <-> In p phrases
             \/ exists c items s,
                  In (c, JArray items) cats /\ In (JString s) items
                  /\ Py.strip s <> EmptyString /\ p = Py.lower (Py.strip s).
Proof.
  revert phrases. induction cats as [|[c v] cats IH]; intros phrases Harr.
  - exists phrases. split; [reflexivity|]. intro p. split; [intro H; left; exact H|].
    intros [H|(c & items & s & [] & _)]. exact H.
  - destruct (Harr c v (or_introl eq_refl)) as (items & ->).
    destruct (IH (fold_left add_phrase items phrases)) as (out & Hout & Hin).
    { intros c' v' H. apply (Harr c' v'). right. exact H. }
    exists out. split; [simpl; exact Hout|].
    intro p. rewrite Hin, fold_add_phrase_in. split.
    + intros [[H|(s & Hs & Hne & Hp)]|(c' & items' & s & Hc & Hs & Hne & Hp)].
      * left. exact H.
      * right. exists c, items, s. repeat split; try assumption. left. reflexivity.
      * right. exists c', items', s. repeat split; try assumption. right. exact Hc.
    + intros [H|(c' & items' & s & [Hc|Hc] & Hs & Hne & Hp)].
      * left. left. exact H.
      * injection Hc as <- <-. left. right. exists s. repeat split; assumption.
      * right. exists c', items', s. repeat split; assumption.
Qed.

(** X5. For a keyword file of the expected shape (an object whose
    [phishing_keywords] maps categories to arrays and whose
    [other_red_flags] is an array), the store holds exactly the strings
    listed there, stripped and lower-cased, the blank ones and the values
    that are no strings left out. *)
Theorem keyword_store_contents (members cats : list (string * json))
    (others : list json) (p : string) :
  json_get (JObject members) "phishing_keywords" (JObject []) = Returns (JObject cats) ->
  (forall c v, In (c, v) cats -> exists items, v = JArray items) ->
  json_get (JObject members) "other_red_flags" (JArray []) = Returns (JArray others) ->
  fst (load_email_unsafe_keywords (Returns (JObject members))) = JObject members
  /\ (In p (snd (load_email_unsafe_keywords (Returns (JObject members))))
      <-> exists s,
            (In (JString s) others
             \/ exists c items, In (c, JArray items) cats /\ In (JString s) items)
            /\ Py.strip s <> EmptyString /\ p = Py.lower (Py.strip s)).
Proof.
  intros Hpk Harr Hother.
  destruct (add_categories_arrays cats [] Harr) as (out & Hout & Hin).
  unfold load_email_unsafe_keywords. cbn [bind try_except].
  rewrite Hpk. cbn [bind try_except json_items]. rewrite Hout. cbn [bind try_except].
  rewrite Hother. cbn [bind try_except json_iter fst snd].
  split; [reflexivity|].
  rewrite fold_add_phrase_in, Hin. split.
  - intros [[[]|(c & items & s & Hc & Hs & Hne & Hp)]|(s & Hs & Hne & Hp)].
    + exists s. split; [right; exists c, items; split; assumption|split; assumption].
    + exists s. split; [left; exact Hs|split; assumption].
  - intros (s & [Hs|(c & items & Hc & Hs)] & Hne & Hp).
    + right. exists s. repeat split; assumption.
    + left. right. exists c, items, s. repeat split; assumption.
Qed.

Lemma keyword_store_contents_witness :
  In "wire transfer"
     (snd (load_email_unsafe_keywords
             (Returns (JObject [("phishing_keywords",
                                 JObject [("account", JArray [JString " Verify "])]);
                                ("other_red_flags",
                                 JArray [JString "Wire Transfer"; JNull])])))).
Proof.
  apply (keyword_store_contents
           [("phishing_keywords", JObject [("account", JArray [JString " Verify "])]);
            ("other_red_flags", JArray [JString "Wire Transfer"; JNull])]
           [("account", JArray [JString " Verify "])]
           [JString "Wire Transfer"; JNull] "wire transfer").
  - reflexivity.
  - intros c v [H|[]]. injection H as _ <-. eexists; reflexivity.
  - reflexivity.
  - exists "Wire Transfer". split; [left; left; reflexivity|].
    split; [vm_compute; discriminate|reflexivity].
Defined.

(** X6. A store built by the loader never holds the empty phrase, so with such
    a store the empty text is Safe Email with probability 0.1, whatever the
    keyword file. *)
Theorem loaded_store_empty_text (file : outcome json) (safe : list string)
    (model : option (feature_row -> outcome Q)) :
  exists r,
    predict_email_with_model
      (Globals (snd (load_email_unsafe_keywords file)) safe model) EmptyString
    = Returns r
    /\ e_binary_pred r = 0%Z /\ e_label r = "Safe Email"
    /\ (e_probability r == 0.1)%Q.
Proof.
  destruct (empty_text_cases (Globals (snd (load_email_unsafe_keywords file)) safe model))
    as (r & Hr & _ & Hsafe).
  exists r. split; [exact Hr|]. apply Hsafe. cbn [EMAIL_UNSAFE_PHRASES].
  destruct (loaded_store_ok file) as [_ Hall].
  intro Hin. apply Hall in Hin. destruct Hin as [Hne _]. apply Hne. reflexivity.
Qed.

(* ===================================================================== *)
(** * URL extraction *)
(* ===================================================================== *)

Lemma prefix_nil (s : string) : String.prefix "" s = true.
Proof. destruct s; reflexivity. Qed.

Lemma lower_app (a b : string) : Py.lower (a ++ b) = Py.lower a ++ Py.lower b.
Proof.
  induction a as [|c a IH]; simpl; [reflexivity|]. rewrite IH. reflexivity.
Qed.

Lemma all_chars_app (p : ascii -> bool) (a b : string) :
  UrlLib.all_chars p (a ++ b) = UrlLib.all_chars p a && UrlLib.all_chars p b.
Proof.
  induction a as [|c a IH]; simpl; [reflexivity|].
  rewrite IH, andb_assoc. reflexivity.
Qed.

Lemma string_length_app (a b : string) :
  String.length (a ++ b) = (String.length a + String.length b)%nat.
Proof.
  induction a as [|c a IH]; simpl; [reflexivity|]. rewrite IH. reflexivity.
Qed.

(** The part of the text matched by a token of the pattern reads as that
    token once lower-cased. *)
Lemma lower_matched_prefix (tok t : string) :
  String.prefix tok (Py.lower t) = true ->
  Py.lower (String.substring 0 (String.length tok) t) = tok.
Proof.
  revert t. induction tok as [|a tok IH]; intros t H.
  - destruct t; reflexivity.
  - destruct t as [|c t]; simpl in H; [discriminate|].
    destruct (Ascii.ascii_dec a (Py.lower_char c)) as [->|]; [|discriminate].
    simpl. rewrite (IH t H). reflexivity.
Qed.

Lemma substring_length (n : nat) (t tok : string) :
  String.prefix tok (Py.lower t) = true ->
  n = String.length tok ->
  String.length (String.substring 0 n t) = n.
Proof.
  intros H ->. rewrite <- (lower_matched_prefix tok t H) at 2.
  generalize (String.substring 0 (String.length tok) t). intro s.
  induction s as [|c s IH]; simpl; [reflexivity|]. rewrite IH. reflexivity.
Qed.

Lemma stop_lower_char (c : ascii) : url_stop (Py.lower_char c) = url_stop c.
Proof.
  destruct c as [[] [] [] [] [] [] [] []]; reflexivity.
Qed.

Lemma not_stop_lower (s : string) :
  UrlLib.all_chars not_stop (Py.lower s) = UrlLib.all_chars not_stop s.
Proof.
  induction s as [|c s IH]; simpl; [reflexivity|].
  unfold not_stop at 1 3. rewrite stop_lower_char, IH. reflexivity.
Qed.

Lemma url_body_not_stop (t : string) : UrlLib.all_chars not_stop (url_body t) = true.
Proof.
  induction t as [|c t IH]; simpl; [reflexivity|].
  destruct (url_stop c) eqn:E; simpl; [reflexivity|].
  unfold not_stop at 1. rewrite E, IH. reflexivity.
Qed.

(** What one successful attempt of the pattern returns. *)
Lemma url_match_at_shape (t u : string) :
  url_match_at t = Some u ->
  exists tok body,
    (tok = "http://" \/ tok = "https://" \/ tok = "www.")
    /\ Py.lower u = tok ++ Py.lower body
    /\ String.length u = (String.length tok + String.length body)%nat
    /\ (0 < String.length body)%nat
    /\ UrlLib.all_chars not_stop u = true.
Proof.
  unfold url_match_at, url_prefix_len. intro H.
  assert (Hgen : forall tok,
             String.prefix tok (Py.lower t) = true ->
             UrlLib.all_chars not_stop tok = true ->
             match url_body (Py.drop (String.length tok) t) with
             | EmptyString => None
             | body => Some (String.substring 0 (String.length tok) t ++ body)
             end = Some u ->
             exists body,
               Py.lower u = tok ++ Py.lower body
               /\ String.length u = (String.length tok + String.length body)%nat
               /\ (0 < String.length body)%nat
               /\ UrlLib.all_chars not_stop u = true).
  { intros tok Hp Htok Hu.
    pose proof (url_body_not_stop (Py.drop (String.length tok) t)) as Hb.
    destruct (url_body (Py.drop (String.length tok) t)) as [|c body]; [discriminate|].
    injection Hu as <-. exists (String c body).
    rewrite lower_app, (lower_matched_prefix tok t Hp), string_length_app,
      (substring_length _ t tok Hp eq_refl), all_chars_app, Hb, andb_true_r.
    repeat split; [simpl; lia|].
    rewrite <- not_stop_lower, (lower_matched_prefix tok t Hp). exact Htok. }
  destruct (String.prefix "http://" (Py.lower t)) eqn:E1.
  { destruct (Hgen "http://" E1 eq_refl H) as (body & H1 & H2 & H3 & H4).
    exists "http://", body. repeat split; auto. }
  destruct (String.prefix "https://" (Py.lower t)) eqn:E2.
  { destruct (Hgen "https://" E2 eq_refl H) as (body & H1 & H2 & H3 & H4).
    exists "https://", body. repeat split; auto. }
  destruct (String.prefix "www." (Py.lower t)) eqn:E3; [|discriminate].
  destruct (Hgen "www." E3 eq_refl H) as (body & H1 & H2 & H3 & H4).
  exists "www.", body. repeat split; auto.
Qed.


Lemma findall_urls_forall (P : string -> Prop) (t : string) :
  (forall s u, url_match_at s = Some u -> P u) ->
  forall prev skip, Forall P (findall_urls prev skip t).
Proof.
  intro HP. induction t as [|c t IH]; intros prev skip; cbn [findall_urls].
  - constructor.
  - destruct skip as [|k]; [|apply IH].
    destruct (word_boundary prev c); [|apply IH].
    destruct (url_match_at (String c t)) as [u|] eqn:E; [|apply IH].
    constructor; [apply (HP _ _ E)|apply IH].
Qed.

Lemma extracted_url_shape_stop (email_text u : string) :
  In u (extract_urls email_text) ->
  (Py.startswith (Py.lower u) "http://" || Py.startswith (Py.lower u) "https://") = true
  /\ (7 < String.length u)%nat
  /\ UrlLib.all_chars (fun c => negb (url_stop c)) u = true.
Proof.
  unfold extract_urls. rewrite in_map_iff. intros (hit & Hu & Hin).
  assert (Hshape : exists tok body,
             (tok = "http://" \/ tok = "https://" \/ tok = "www.")
             /\ Py.lower hit = tok ++ Py.lower body
             /\ String.length hit = (String.length tok + String.length body)%nat
             /\ (0 < String.length body)%nat
             /\ UrlLib.all_chars not_stop hit = true).
  { pose proof (findall_urls_forall
                  (fun u => exists tok body,
                     (tok = "http://" \/ tok = "https://" \/ tok = "www.")
                     /\ Py.lower u = tok ++ Py.lower body
                     /\ String.length u = (String.length tok + String.length body)%nat
                     /\ (0 < String.length body)%nat
                     /\ UrlLib.all_chars not_stop u = true)
                  (Py.str_or email_text "")) as HF.
    assert (Hall := HF url_match_at_shape None 0%nat).
    rewrite Forall_forall in Hall. apply Hall. exact Hin. }
  destruct Hshape as (tok & body & Htok & Hlow & Hlen & Hbody & Hns).
  change (fun c => negb (url_stop c)) with not_stop.
  unfold Py.startswith in *.
  destruct Htok as [ -> | [ -> | -> ] ]; rewrite Hlow in Hu; cbn in Hu;
    rewrite ?prefix_nil in Hu; cbn in Hu; subst u.
  - rewrite Hlow. cbn. rewrite prefix_nil. simpl in Hlen.
    repeat split; [lia|exact Hns].
  - rewrite Hlow. cbn. rewrite prefix_nil. simpl in Hlen.
    repeat split; [lia|exact Hns].
  - cbn. rewrite prefix_nil, Hlen. simpl.
    repeat split; [lia|exact Hns].
Qed.

Lemma all_chars_in (p : ascii -> bool) (s : string) (c : ascii) :
  UrlLib.all_chars p s = true -> In c (list_ascii_of_string s) -> p c = true.
Proof.
  induction s as [|a s IH]; cbn [UrlLib.all_chars list_ascii_of_string]; intros H Hin.
  - destruct Hin.
  - apply andb_true_iff in H. destruct H as [Ha Hs].
    destruct Hin as [<-|Hin]; [exact Ha|exact (IH Hs Hin)].
Qed.

(** X7. Every URL returned by [extract_urls] starts with [http://] or
    [https://] in some mix of cases, continues with at least one more
    character, and holds no white space (no space, tab, line feed or
    carriage return among others), no angle bracket, no double or single
    quote, no closing parenthesis and no closing square bracket. *)
Theorem extracted_url_shape (email_text u : string) :
  In u (extract_urls email_text) ->
  (Py.startswith (Py.lower u) "http://" || Py.startswith (Py.lower u) "https://") = true
  /\ (7 < String.length u)%nat
  /\ forall c, In c (list_ascii_of_string u) ->
       Py.isspace c = false
       /\ c <> " "%char /\ c <> "009"%char /\ c <> "010"%char /\ c <> "013"%char
       /\ c <> "<"%char /\ c <> ">"%char /\ c <> "034"%char /\ c <> "'"%char
       /\ c <> ")"%char /\ c <> "]"%char.
Proof.
  intro Hin. destruct (extracted_url_shape_stop email_text u Hin) as (Hp & Hl & Hs).
  split; [exact Hp|]. split; [exact Hl|].
  intros c Hc. pose proof (all_chars_in _ _ _ Hs Hc) as Hstop.
  apply negb_true_iff in Hstop.
  split.
  { destruct (Py.isspace c) eqn:E; [|reflexivity].
    unfold url_stop in Hstop. rewrite E in Hstop. discriminate Hstop. }
  repeat split; intro E; subst c; vm_compute in Hstop; discriminate Hstop.
Qed.

Lemma extracted_url_shape_witness :
  (7 < String.length "http://www.c.d")%nat.
Proof.
  apply (extracted_url_shape "see www.c.d) now" "http://www.c.d").
  vm_compute. left. reflexivity.
Defined.




(* ===================================================================== *)
(** * URL classifier: further properties *)
(* ===================================================================== *)

Section UrlClassifierMore.

Variable urlparse : string -> outcome parse_result.

(** X9. The domain of a URL is always obtained and is in lower case: it is
    the network location of the parsed URL, or its path when the location
    is empty, or the URL itself when [urlparse] raises; the two other
    components are empty. *)
Theorem parsed_domain (url : string) :
  exists domain,
    parse_domain_and_path urlparse url = Returns (domain, "", "")
    /\ Py.lower domain = domain
    /\ (urlparse url = Raises -> domain = Py.lower url)
    /\ (forall parsed, urlparse url = Returns parsed ->
          domain = Py.lower (match netloc parsed with
                             | EmptyString => path parsed
                             | _ => netloc parsed
                             end)).
Proof.
  unfold parse_domain_and_path.
  destruct (urlparse url) as [parsed|]; cbn [bind try_except];
    eexists; (split; [reflexivity|]); (split; [apply lower_idempotent|]); split;
    try discriminate; try reflexivity.
  intros parsed' H. injection H as <-. reflexivity.
Qed.

Lemma predict_url_cases (g : globals) (url domain : string) :
  parse_domain_and_path urlparse url = Returns (domain, "", "") ->
  predict_url urlparse g url =
  if is_known_safe_domain g domain
  then Returns (UrlResult (Some url) "Safe URL" 0 0.98)
  else
    res <- predict_url_from_features g (FeatureRow domain 1) ;;
    Returns (UrlResult (Some url) (u_label res) (u_binary_pred res) (u_confidence res)).
Proof.
  intro Hd. unfold predict_url. rewrite Hd. cbn [bind].
  destruct (is_known_safe_domain g domain); [reflexivity|].
  rewrite (build_features_equation _ _ _ Hd). reflexivity.
Qed.

Lemma from_features_verdicts (g : globals) (row : feature_row) :
  exists r,
    predict_url_from_features g row = Returns r
    /\ (u_binary_pred r = (-1)%Z /\ u_label r = "Suspicious URL"
        \/ u_binary_pred r = 1%Z /\ u_label r = "Phishing URL").
Proof.
  unfold predict_url_from_features.
  destruct (url_model g) as [model|].
  - destruct (model row) as [p|]; cbn [bind try_except].
    + destruct (Py.ltb p 0.5); eexists; (split; [reflexivity|]); auto.
    + eexists. split; [reflexivity|]. right. split; reflexivity.
  - eexists. split; [reflexivity|]. left. split; reflexivity.
Qed.

Lemma predict_url_carries_url (g : globals) (url : string) :
  exists r, predict_url urlparse g url = Returns r /\ u_url r = Some url.
Proof.
  destruct (parse_domain_returns urlparse url) as (domain & Hd).
  rewrite (predict_url_cases g url domain Hd).
  destruct (is_known_safe_domain g domain).
  - eexists. split; reflexivity.
  - destruct (from_features_verdicts g (FeatureRow domain 1)) as (res & Hres & _).
    rewrite Hres. eexists. split; reflexivity.
Qed.

(** X10. The three verdicts of the URL classifier. Every call returns a result
    that carries the URL; the result is Safe URL (binary_pred 0) exactly
    when the domain is whitelisted, and otherwise Suspicious URL (-1) or
    Phishing URL (1): no model output makes a URL safe. *)
Theorem url_verdicts (g : globals) (url : string) :
  exists r domain,
    predict_url urlparse g url = Returns r
    /\ parse_domain_and_path urlparse url = Returns (domain, "", "")
    /\ u_url r = Some url
    /\ (u_label r = "Safe URL" <-> is_known_safe_domain g domain = true)
    /\ (u_binary_pred r = 0%Z <-> is_known_safe_domain g domain = true)
    /\ (u_binary_pred r = 0%Z /\ u_label r = "Safe URL"
        \/ u_binary_pred r = (-1)%Z /\ u_label r = "Suspicious URL"
        \/ u_binary_pred r = 1%Z /\ u_label r = "Phishing URL").
Proof.
  destruct (parse_domain_returns urlparse url) as (domain & Hd).
  rewrite (predict_url_cases g url domain Hd).
  destruct (is_known_safe_domain g domain) eqn:Hsafe.
  - eexists. exists domain. split; [reflexivity|]. split; [exact Hd|].
    cbn. repeat split; auto.
  - destruct (from_features_verdicts g (FeatureRow domain 1)) as (res & Hres & Hv).
    rewrite Hres. cbn [bind].
    eexists. exists domain. split; [reflexivity|]. split; [exact Hd|].
    cbn [u_url u_label u_binary_pred].
    split; [reflexivity|].
    destruct Hv as [[-> ->]|[-> ->]]; repeat split; try discriminate; auto;
      intro H; congruence.
Qed.

(** X11. With a loaded model that answers [p] on the feature row of a
    non-whitelisted URL, the confidence is [p] itself, and the verdict is
    Suspicious URL when [p] is below 0.5 and Phishing URL from 0.5 on. The
    feature row holds the lower-cased domain, not the normalized one. *)
Theorem answering_model_threshold (g : globals) (url domain : string)
    (model : feature_row -> outcome Q) (p : Q) :
  parse_domain_and_path urlparse url = Returns (domain, "", "") ->
  is_known_safe_domain g domain = false ->
  url_model g = Some model ->
  model (FeatureRow domain 1) = Returns p ->
  exists r,
    predict_url urlparse g url = Returns r
    /\ u_url r = Some url
    /\ u_confidence r = p
    /\ ((p < 0.5)%Q -> u_label r = "Suspicious URL" /\ u_binary_pred r = (-1)%Z)
    /\ ((0.5 <= p)%Q -> u_label r = "Phishing URL" /\ u_binary_pred r = 1%Z).
Proof.
  intros Hd Hsafe Hmodel Hp.
  rewrite (predict_url_cases g url domain Hd), Hsafe.
  unfold predict_url_from_features. rewrite Hmodel, Hp. cbn [bind try_except].
  destruct (Py.ltb p 0.5) eqn:E; cbn [bind];
    eexists; (split; [reflexivity|]); cbn [u_url u_label u_binary_pred u_confidence];
    (split; [reflexivity|]); (split; [reflexivity|]).
  - apply ltb_true in E. split; [auto|]. intro H. exfalso. lra.
  - assert (Hge : (0.5 <= p)%Q).
    { unfold Py.ltb in E. apply negb_false_iff in E. apply Qle_bool_iff. exact E. }
    split; [|auto]. intro H. exfalso. lra.
Qed.

(** X12. The per-URL results of a text: one result for each extracted URL, in
    the order of extraction, each carrying its URL. *)
Theorem url_results_follow_extraction (g : globals) (email_text : string) :
  exists results,
    predict_urls_in_text urlparse g email_text = Returns results
    /\ map u_url results = map Some (extract_urls email_text).
Proof.
  unfold predict_urls_in_text.
  induction (extract_urls email_text) as [|url urls IH]; cbn [for_each].
  - exists []. split; reflexivity.
  - destruct (predict_url_carries_url g url) as (r & Hr & Hurl).
    destruct IH as (rs & Hrs & Hmap).
    exists (r :: rs). rewrite Hr, Hrs. cbn [bind map].
    split; [reflexivity|]. rewrite Hurl, Hmap. reflexivity.
Qed.

End UrlClassifierMore.

Lemma parsed_domain_witness :
  exists domain,
    parse_domain_and_path UrlLib.urlparse "HTTP://[Bad" = Returns (domain, "", "")
    /\ domain = "http://[bad".
Proof.
  destruct (parsed_domain UrlLib.urlparse "HTTP://[Bad") as (domain & Hd & _ & Hraise & _).
  exists domain. split; [exact Hd|]. apply Hraise. reflexivity.
Defined.

Lemma answering_model_threshold_witness :
  exists r,
    predict_url UrlLib.urlparse Demo.sure_model "http://evil.example/x" = Returns r
    /\ u_label r = "Phishing URL" /\ u_confidence r = 1%Q.
Proof.
  destruct (answering_model_threshold UrlLib.urlparse Demo.sure_model
              "http://evil.example/x" "evil.example" (fun _ => Returns 1%Q) 1%Q
              eq_refl eq_refl eq_refl eq_refl)
    as (r & Hr & _ & Hc & _ & Hge).
  exists r. split; [exact Hr|]. split; [|exact Hc].
  apply Hge. vm_compute. discriminate.
Defined.

(* ===================================================================== *)
(** * Domain whitelist: entries that can match *)
(* ===================================================================== *)








(* ===================================================================== *)
(** * Hybrid fuser: further properties *)
(* ===================================================================== *)

Lemma qdiv2 (x : Q) : (x / 2 == x * (1 # 2))%Q.
Proof. reflexivity. Qed.

Lemma geb_true (a b : Q) : Py.geb a b = true <-> (b <= a)%Q.
Proof. unfold Py.geb. apply Qle_bool_iff. Qed.

Lemma geb_false (a b : Q) : Py.geb a b = false <-> (a < b)%Q.
Proof.
  unfold Py.geb. split; intro H.
  - apply Qnot_le_lt. intro L. apply Qle_bool_iff in L. congruence.
  - destruct (Qle_bool b a) eqn:E; [|reflexivity].
    apply Qle_bool_iff in E. exfalso. apply (Qlt_not_le _ _ H E).
Qed.

Lemma of_nat_succ (n : nat) : (Py.of_nat (S n) == Py.of_nat n + 1)%Q.
Proof.
  unfold Py.of_nat. rewrite Nat2Z.inj_succ. unfold Z.succ.
  rewrite inject_Z_plus. reflexivity.
Qed.

Lemma sum_of_halves (xs : list Q) :
  Forall (fun x => x = 0.5%Q) xs ->
  (fold_right Qplus 0 xs == 0.5 * Py.of_nat (List.length xs))%Q.
Proof.
  induction 1 as [|x xs Hx _ IH]; simpl.
  - reflexivity.
  - subst x. rewrite IH.
    change (Py.of_nat (S (Datatypes.length xs))) with (Py.of_nat (S (List.length xs))).
    rewrite of_nat_succ. ring.
Qed.

(** The mean of confidences that are all 0.5 is 0.5. *)
Lemma mean_of_halves (xs : list Q) :
  xs <> [] ->
  Forall (fun x => x = 0.5%Q) xs ->
  (mean xs == 0.5)%Q.
Proof.
  intros Hne Hall. unfold mean. rewrite (sum_of_halves xs Hall).
  assert (Hpos : (0 < Py.of_nat (List.length xs))%Q).
  { apply of_nat_pos. destruct xs; [congruence|simpl; lia]. }
  apply Qdiv_mult_l. intro H. rewrite H in Hpos. discriminate Hpos.
Qed.

Lemma sum_at_most (xs : list Q) (b : Q) :
  (forall x, In x xs -> (x <= b)%Q) ->
  (fold_right Qplus 0 xs <= b * Py.of_nat (List.length xs))%Q.
Proof.
  induction xs as [|x xs IH]; intro H.
  - cbn [fold_right List.length]. change (Py.of_nat 0) with 0%Q. lra.
  - cbn [fold_right List.length]. rewrite of_nat_succ.
    assert (x <= b)%Q by (apply H; left; reflexivity).
    assert (fold_right Qplus 0 xs <= b * Py.of_nat (List.length xs))%Q
      by (apply IH; intros y Hy; apply H; right; exact Hy).
    lra.
Qed.

Lemma sum_at_least (xs : list Q) (a : Q) :
  (forall x, In x xs -> (a <= x)%Q) ->
  (a * Py.of_nat (List.length xs) <= fold_right Qplus 0 xs)%Q.
Proof.
  induction xs as [|x xs IH]; intro H.
  - cbn [fold_right List.length]. change (Py.of_nat 0) with 0%Q. lra.
  - cbn [fold_right List.length]. rewrite of_nat_succ.
    assert (a <= x)%Q by (apply H; left; reflexivity).
    assert (a * Py.of_nat (List.length xs) <= fold_right Qplus 0 xs)%Q
      by (apply IH; intros y Hy; apply H; right; exact Hy).
    lra.
Qed.

(** The mean of a non-empty list lies between any bounds of its items. *)
Lemma mean_at_most (xs : list Q) (b : Q) :
  xs <> [] -> (forall x, In x xs -> (x <= b)%Q) -> (mean xs <= b)%Q.
Proof.
  intros Hne H. unfold mean.
  assert (Hpos : (0 < Py.of_nat (List.length xs))%Q).
  { apply of_nat_pos. destruct xs; [congruence|simpl; lia]. }
  apply Qle_shift_div_r; [exact Hpos|]. apply sum_at_most. exact H.
Qed.

Lemma mean_at_least (xs : list Q) (a : Q) :
  xs <> [] -> (forall x, In x xs -> (a <= x)%Q) -> (a <= mean xs)%Q.
Proof.
  intros Hne H. unfold mean.
  assert (Hpos : (0 < Py.of_nat (List.length xs))%Q).
  { apply of_nat_pos. destruct xs; [congruence|simpl; lia]. }
  apply Qle_shift_div_l; [exact Hpos|]. apply sum_at_least. exact H.
Qed.

Section HybridMore.

Variable urlparse : string -> outcome parse_result.

(** The fuser always returns; its result is read off the source. *)
Lemma hybrid_equation (g : globals) (t : string) :
  exists email_res urls,
    match check_email_unsafe_by_rules g t with
    | _ :: _ =>
        features <- extract_email_meta_features g [t] ;;
        meta <- index features 0 ;;
        Returns (EmailResult "Phishing Email" 0.98 9.6 1 (meta_dict_of meta))
    | [] => predict_email_with_model g t
    end = Returns email_res
    /\ predict_urls_in_text urlparse g t = Returns urls
    /\ hybrid_predict urlparse g t =
       Returns
         (if existsb (fun u => String.eqb (u_label u) "Safe URL") urls
          then HybridResult "Safe Content" 0.98 0 email_res urls
          else
            let url_proba :=
              match urls with
              | [] => 0.5%Q
              | _ :: _ => mean (map u_confidence urls)
              end in
            let final_proba := ((e_probability email_res + url_proba) / 2)%Q in
            HybridResult
              (if Py.geb final_proba 0.5 then "Phishing Content" else "Safe Content")
              final_proba
              (if Py.geb final_proba 0.5 then 1%Z else 0%Z)
              email_res urls).
Proof.
  destruct (hybrid_email_branch_returns g t) as (email_res & He & _).
  destruct (predict_urls_in_text_returns urlparse g t) as (urls & Hu).
  exists email_res, urls. split; [exact He|]. split; [exact Hu|].
  unfold hybrid_predict. rewrite He. cbn [bind]. rewrite Hu. cbn [bind].
  destruct (existsb _ urls); [reflexivity|].
  cbv zeta. destruct (Py.geb _ 0.5); reflexivity.
Qed.

(** X15. The fused verdict is consistent: either Phishing Content with
    final_binary_pred 1 and a final_proba of at least 0.5, no URL being
    safe; or Safe Content with final_binary_pred 0, where final_proba is
    below 0.5 unless a Safe URL forced the verdict, in which case it is
    0.98. *)
Theorem fused_verdict_consistent (g : globals) (t : string) :
  exists r,
    hybrid_predict urlparse g t = Returns r
    /\ ((final_binary_pred r = 1%Z /\ final_label r = "Phishing Content"
         /\ (0.5 <= final_proba r)%Q
         /\ forall u, In u (url_branch r) -> u_label u <> "Safe URL")
        \/ (final_binary_pred r = 0%Z /\ final_label r = "Safe Content"
            /\ (final_proba r < 0.5)%Q
            /\ forall u, In u (url_branch r) -> u_label u <> "Safe URL")
        \/ (final_binary_pred r = 0%Z /\ final_label r = "Safe Content"
            /\ final_proba r = 0.98%Q
            /\ exists u, In u (url_branch r) /\ u_label u = "Safe URL")).
Proof.
  destruct (hybrid_equation g t) as (e & urls & _ & _ & Hh).
  eexists. split; [exact Hh|].
  destruct (existsb (fun u => String.eqb (u_label u) "Safe URL") urls) eqn:Ex.
  - right. right. cbn. repeat split.
    apply existsb_exists in Ex. destruct Ex as (u & Hin & Hl).
    exists u. split; [exact Hin|]. apply String.eqb_eq. exact Hl.
  - assert (Hno : forall u, In u urls -> u_label u <> "Safe URL").
    { intros u Hin Hl.
      assert (existsb (fun u => String.eqb (u_label u) "Safe URL") urls = true);
        [|congruence].
      apply existsb_exists. exists u. split; [exact Hin|].
      apply String.eqb_eq. exact Hl. }
    cbv zeta.
    destruct (Py.geb _ 0.5) eqn:E; cbn [final_binary_pred final_label final_proba url_branch].
    + left. apply geb_true in E. repeat split; [exact E|exact Hno].
    + right. left. apply geb_false in E. repeat split; [exact E|exact Hno].
Qed.

(** X16. The two branches bundled in the result are the per-channel results:
    [url_branch] is what [predict_urls_in_text] returns and, when no rule
    matches, [email_branch] is what [predict_email_with_model] returns.
    After a rule match the email branch is a fixed result instead,
    probability 0.98 and score 9.6 whatever the number of matched phrases,
    with the label, verdict and meta-features of the email classifier. *)
Theorem fused_branches (g : globals) (t : string) :
  exists r e,
    hybrid_predict urlparse g t = Returns r
    /\ predict_email_with_model g t = Returns e
    /\ predict_urls_in_text urlparse g t = Returns (url_branch r)
    /\ (check_email_unsafe_by_rules g t = [] -> email_branch r = e)
    /\ (check_email_unsafe_by_rules g t <> [] ->
        email_branch r
        = EmailResult "Phishing Email" 0.98 9.6 1 (e_meta e)
        /\ e_label e = "Phishing Email" /\ e_binary_pred e = 1%Z).
Proof.
  destruct (hybrid_equation g t) as (er & urls & He & Hu & Hh).
  destruct (predict_email_equation g t) as (m & Hm & Heq).
  destruct (extract_singleton g t) as (m' & Hex & Hm').
  rewrite Hm in Hm'. injection Hm' as <-.
  eexists. eexists. split; [exact Hh|]. split; [exact Heq|].
  assert (Hb : url_branch
                 (if existsb (fun u => String.eqb (u_label u) "Safe URL") urls
                  then HybridResult "Safe Content" 0.98 0 er urls
                  else
                    let url_proba :=
                      match urls with
                      | [] => 0.5%Q
                      | _ :: _ => mean (map u_confidence urls)
                      end in
                    let final_proba := ((e_probability er + url_proba) / 2)%Q in
                    HybridResult
                      (if Py.geb final_proba 0.5 then "Phishing Content" else "Safe Content")
                      final_proba
                      (if Py.geb final_proba 0.5 then 1%Z else 0%Z)
                      er urls) = urls
               /\ email_branch
                 (if existsb (fun u => String.eqb (u_label u) "Safe URL") urls
                  then HybridResult "Safe Content" 0.98 0 er urls
                  else
                    let url_proba :=
                      match urls with
                      | [] => 0.5%Q
                      | _ :: _ => mean (map u_confidence urls)
                      end in
                    let final_proba := ((e_probability er + url_proba) / 2)%Q in
                    HybridResult
                      (if Py.geb final_proba 0.5 then "Phishing Content" else "Safe Content")
                      final_proba
                      (if Py.geb final_proba 0.5 then 1%Z else 0%Z)
                      er urls) = er).
  { destruct (existsb _ urls); split; reflexivity. }
  destruct Hb as [-> ->].
  split; [exact Hu|].
  destruct (check_email_unsafe_by_rules g t) as [|p ps] eqn:Hc.
  - split; [|congruence]. intros _.
    rewrite Heq in He. injection He as <-. reflexivity.
  - split; [congruence|]. intros _.
    rewrite Hex in He. cbn in He. injection He as <-.
    repeat split.
Qed.

(** X17. Without a loaded URL model, URLs that are not whitelisted weigh
    nothing: each has confidence 0.5, so the fused probability is the mean
    of the email probability and 0.5, as for a text without URLs, and the
    verdict is Phishing Content exactly when the email probability is at
    least 0.5. In particular a Safe Email result of probability 0.5 is
    fused into Phishing Content. *)
Theorem fused_without_model (g : globals) (t : string) :
  url_model g = None ->
  (forall url domain,
      In url (extract_urls t) ->
      parse_domain_and_path urlparse url = Returns (domain, "", "") ->
      is_known_safe_domain g domain = false) ->
  exists r,
    hybrid_predict urlparse g t = Returns r
    /\ (final_proba r == (e_probability (email_branch r) + 0.5) / 2)%Q
    /\ (final_binary_pred r = 1%Z /\ final_label r = "Phishing Content"
        <-> (0.5 <= e_probability (email_branch r))%Q)
    /\ (final_binary_pred r = 0%Z /\ final_label r = "Safe Content"
        <-> (e_probability (email_branch r) < 0.5)%Q).
Proof.
  intros Hmodel Hnot.
  destruct (hybrid_equation g t) as (er & urls & _ & Hu & Hh).
  assert (Hall : Forall (fun u => u_label u = "Suspicious URL"
                                  /\ u_confidence u = 0.5%Q) urls).
  { clear Hh. unfold predict_urls_in_text in Hu. revert urls Hu Hnot.
    induction (extract_urls t) as [|url l IH]; intros urls Hu Hnot; cbn [for_each] in Hu.
    - injection Hu as <-. constructor.
    - destruct (parse_domain_returns urlparse url) as (domain & Hd).
      rewrite (predict_url_cases urlparse g url domain Hd),
        (Hnot url domain (or_introl eq_refl) Hd) in Hu.
      unfold predict_url_from_features in Hu. rewrite Hmodel in Hu. cbn [bind] in Hu.
      destruct (for_each (predict_url urlparse g) l) as [rs|] eqn:Hrs;
        cbn [bind] in Hu; [|discriminate].
      injection Hu as <-. constructor; [split; reflexivity|].
      apply (IH rs eq_refl). intros u d Hin. apply Hnot. right. exact Hin. }
  assert (Hex : existsb (fun u => String.eqb (u_label u) "Safe URL") urls = false).
  { clear Hh Hu. induction Hall as [|u urls [Hl _] _ IH]; [reflexivity|].
    cbn [existsb]. rewrite Hl, IH. reflexivity. }
  assert (Hmean : (match urls with
                   | [] => 0.5%Q
                   | _ :: _ => mean (map u_confidence urls)
                   end == 0.5)%Q).
  { destruct urls as [|u urls]; [reflexivity|].
    apply mean_of_halves; [discriminate|].
    apply Forall_map. eapply Forall_impl; [|exact Hall]. intros a [_ H]. exact H. }
  rewrite Hex in Hh. cbv zeta in Hh.
  eexists. split; [exact Hh|].
  cbn [final_proba final_binary_pred final_label email_branch].
  set (up := match urls with [] => 0.5%Q | _ :: _ => mean (map u_confidence urls) end) in *.
  split; [rewrite Hmean; reflexivity|].
  destruct (Py.geb ((e_probability er + up) / 2) 0.5) eqn:E.
  - apply geb_true in E. rewrite qdiv2, Hmean in E. split.
    + split; [intros _; lra|intros _; split; reflexivity].
    + split; [intros [H _]; discriminate H|intro H; exfalso; lra].
  - apply geb_false in E. rewrite qdiv2, Hmean in E. split.
    + split; [intros [H _]; discriminate H|intro H; exfalso; lra].
    + split; [intros _; lra|intros _; split; reflexivity].
Qed.

End HybridMore.

Lemma fused_without_model_witness :
  exists r,
    hybrid_predict UrlLib.urlparse Demo.no_model
      "please verify at http://evil.example/x" = Returns r
    /\ final_label r = "Phishing Content".
Proof.
  destruct (fused_without_model UrlLib.urlparse Demo.no_model
              "please verify at http://evil.example/x" eq_refl)
    as (r & Hr & _ & Hp & _).
  - intros url domain [<-|[]] Hd. vm_compute in Hd. injection Hd as <-. reflexivity.
  - exists r. split; [exact Hr|]. apply Hp.
    vm_compute in Hr. injection Hr as <-. vm_compute. discriminate.
Defined.

(* ===================================================================== *)
(** * Explanation generator: further properties *)
(* ===================================================================== *)

Lemma when_length (b : bool) (l : list explanation) :
  (List.length (when b l) <= List.length l)%nat.
Proof. destruct b; simpl; lia. Qed.

(** X19. The explanation list is never empty and has at most 7 lines: 3 to 7
    in email mode, exactly 4 in url mode, 3 to 5 in hybrid mode, and for
    any other mode the confidence line alone. *)
Theorem explanation_sizes (mode : string) (result : verdict) (input_text : string)
    (meta_features : option meta_dict) :
  let n := List.length (generate_ai_explanation mode result input_text meta_features) in
  (1 <= n <= 7)%nat
  /\ (mode = "email" -> (3 <= n <= 7)%nat)
  /\ (mode = "url" -> n = 4%nat)
  /\ (mode = "hybrid" -> (3 <= n <= 5)%nat)
  /\ (mode <> "email" -> mode <> "url" -> mode <> "hybrid" ->
      generate_ai_explanation mode result input_text meta_features
      = [ConfidenceLine (confidence_tier (confidence_of result)) (confidence_of result)]).
Proof.
  cbv zeta. unfold generate_ai_explanation. rewrite length_app. cbn [List.length].
  assert (He : (2 <= List.length (email_explanations result meta_features) <= 6)%nat).
  { unfold email_explanations.
    destruct (is_pred (v_binary_pred result) 1); [|cbn [List.length]; lia].
    destruct meta_features as [m|]; [|cbn [List.length app]; lia].
    destruct (Py.gtb (num_urgent_terms m) 0), (Py.gtb (upper_ratio m) 0.1),
      (Py.gtb (num_exclam m) 2), (Py.gtb (num_urls m) 0);
      cbn [when List.length app]; lia. }
  assert (Hu : List.length (url_explanations result) = 3%nat).
  { unfold url_explanations.
    destruct (is_pred (v_binary_pred result) 1); [reflexivity|].
    destruct (is_pred (v_binary_pred result) (-1)); reflexivity. }
  assert (Hh : (2 <= List.length (hybrid_explanations result) <= 4)%nat).
  { unfold hybrid_explanations. cbv zeta.
    destruct (get (v_final_binary_pred result) 0 =? 1)%Z.
    - destruct (is_pred (option_map e_binary_pred (v_email_branch result)) 1),
        (existsb (fun u => (u_binary_pred u =? 1)%Z) (get (v_url_branch result) []));
        cbn [when List.length app]; lia.
    - destruct (existsb (fun u => String.eqb (u_label u) "Safe URL")
                        (get (v_url_branch result) []));
        cbn [when List.length app]; lia. }
  destruct (String.eqb mode "email") eqn:E1.
  { apply String.eqb_eq in E1. subst mode.
    split; [lia|]. split; [intros _; lia|].
    split; [intro H; discriminate H|]. split; [intro H; discriminate H|].
    intro H. exfalso. apply H. reflexivity. }
  destruct (String.eqb mode "url") eqn:E2.
  { apply String.eqb_eq in E2. subst mode.
    split; [lia|]. split; [intro H; discriminate H|].
    split; [intros _; lia|]. split; [intro H; discriminate H|].
    intros _ H. exfalso. apply H. reflexivity. }
  destruct (String.eqb mode "hybrid") eqn:E3.
  { apply String.eqb_eq in E3. subst mode.
    split; [lia|]. split; [intro H; discriminate H|].
    split; [intro H; discriminate H|]. split; [intros _; lia|].
    intros _ _ H. exfalso. apply H. reflexivity. }
  apply String.eqb_neq in E1, E2, E3.
  cbn [List.length app Nat.add].
  split; [lia|]. split; [intro H; exfalso; exact (E1 H)|].
  split; [intro H; exfalso; exact (E2 H)|].
  split; [intro H; exfalso; exact (E3 H)|].
  intros _ _ _. reflexivity.
Qed.

Lemma explanation_sizes_witness :
  generate_ai_explanation "sms" (verdict_of_url (UrlResult None "Safe URL" 0 0.98))
    "hello" None
  = [ConfidenceLine High 0.98].
Proof.
  apply (explanation_sizes "sms" (verdict_of_url (UrlResult None "Safe URL" 0 0.98))
           "hello" None); discriminate.
Defined.

Lemma email_explanation_urgent (result : verdict) (t : string) (m : meta_dict) :
  is_pred (v_binary_pred result) 1 = true ->
  Py.gtb (num_urgent_terms m) 0 = true ->
  generate_ai_explanation "email" result t (Some m)
  = EmailHighRisk
      :: UrgentLanguage (num_urgent_terms m)
      :: (when (Py.gtb (upper_ratio m) 0.1) [ExcessiveCapitalization (upper_ratio m)]
          ++ when (Py.gtb (num_exclam m) 2) [ExcessivePunctuation (num_exclam m)]
          ++ when (Py.gtb (num_urls m) 0) [SuspiciousLinks (num_urls m)])
      ++ [EmailRecommendation;
          ConfidenceLine (confidence_tier (confidence_of result)) (confidence_of result)].
Proof.
  intros Hp Hu. unfold generate_ai_explanation, email_explanations.
  change (String.eqb "email" "email") with true. cbv iota zeta.
  rewrite Hp, Hu. cbn [when].
  destruct (Py.gtb (upper_ratio m) 0.1), (Py.gtb (num_exclam m) 2),
    (Py.gtb (num_urls m) 0); reflexivity.
Qed.

(** X20. An email flagged by the rule matcher is explained, as the [/predict]
    route calls the generator, by the high-risk headline followed by the
    urgent-language line carrying the number of matched phrases; the list
    ends with the recommendation and the confidence line. *)
Theorem rule_match_explained (g : globals) (t : string) :
  check_email_unsafe_by_rules g t <> [] ->
  exists r causes t' c,
    predict_email_with_model g t = Returns r
    /\ generate_ai_explanation "email" (verdict_of_email r) t (Some (e_meta r))
       = EmailHighRisk
           :: UrgentLanguage
                (Py.of_nat (List.length (check_email_unsafe_by_rules g t)))
           :: causes ++ [EmailRecommendation; ConfidenceLine t' c]
    /\ c = e_probability r.
Proof.
  intro Hne.
  destruct (predict_email_equation g t) as (m & Hm & Heq).
  destruct (meta_features_of_returns g t) as (dr & ur & Hm' & _).
  rewrite Hm' in Hm. injection Hm as <-.
  assert (Hpos : Py.gtb (Py.of_nat (List.length (check_email_unsafe_by_rules g t))) 0
                 = true).
  { apply gtb_true. apply of_nat_pos.
    destruct (check_email_unsafe_by_rules g t); [congruence|simpl; lia]. }
  rewrite <- check_rules_filter in Heq.
  destruct (check_email_unsafe_by_rules g t) as [|p ps] eqn:Hc; [congruence|].
  cbv zeta in Heq.
  eexists. eexists. eexists. eexists. split; [exact Heq|].
  split; [apply email_explanation_urgent; [reflexivity|exact Hpos]|reflexivity].
Qed.

Lemma rule_match_explained_witness :
  exists r,
    predict_email_with_model Demo.no_model "please verify" = Returns r
    /\ In (UrgentLanguage (Py.of_nat 1))
          (generate_ai_explanation "email" (verdict_of_email r) "please verify"
             (Some (e_meta r))).
Proof.
  destruct (rule_match_explained Demo.no_model "please verify")
    as (r & causes & t' & c & Hr & He & _).
  - vm_compute. discriminate.
  - exists r. split; [exact Hr|]. rewrite He. right. left. reflexivity.
Defined.

Section ExplainedOverride.

Variable urlparse : string -> outcome parse_result.

(** X21. When a Safe URL forces the fused verdict, the hybrid explanation is
    the safety headline, the trusted-domains line with the number of Safe
    URL results, the best-practice line and the High confidence line at
    0.98, whatever the email branch says. *)
Theorem override_explained (g : globals) (t : string) (r : hybrid_result) :
  hybrid_predict urlparse g t = Returns r ->
  (exists u, In u (url_branch r) /\ u_label u = "Safe URL") ->
  generate_ai_explanation "hybrid" (verdict_of_hybrid r) t None
  = [HybridSafetyCheck;
     HybridTrustedDomains
       (List.length (filter (fun u => String.eqb (u_label u) "Safe URL") (url_branch r)));
     HybridBestPractice;
     ConfidenceLine High 0.98]
  /\ (1 <= List.length (filter (fun u => String.eqb (u_label u) "Safe URL")
                               (url_branch r)))%nat.
Proof.
  intros Hr (u & Hin & Hl).
  destruct (hybrid_equation urlparse g t) as (er & urls & _ & _ & Hh).
  rewrite Hh in Hr. injection Hr as <-.
  assert (Hex : existsb (fun u => String.eqb (u_label u) "Safe URL") urls = true).
  { apply existsb_exists. exists u. split; [|rewrite Hl; reflexivity].
    destruct (existsb _ urls); exact Hin. }
  rewrite Hex. split.
  - unfold generate_ai_explanation, hybrid_explanations, confidence_of.
    cbn. rewrite Hex. reflexivity.
  - cbn [url_branch].
    assert (Hf : In u (filter (fun u => String.eqb (u_label u) "Safe URL") urls)).
    { apply filter_In. split; [|rewrite Hl; reflexivity].
      rewrite Hex in Hin. exact Hin. }
    destruct (filter _ urls); [destruct Hf|simpl; lia].
Qed.

End ExplainedOverride.

Lemma override_explained_witness :
  exists r,
    hybrid_predict UrlLib.urlparse Demo.no_model
      "URGENT: verify at http://paypal.com/login now" = Returns r
    /\ generate_ai_explanation "hybrid" (verdict_of_hybrid r)
         "URGENT: verify at http://paypal.com/login now" None
       = [HybridSafetyCheck; HybridTrustedDomains 1; HybridBestPractice;
          ConfidenceLine High 0.98].
Proof.
  eexists. split; [vm_compute; reflexivity|].
  apply (override_explained UrlLib.urlparse Demo.no_model
           "URGENT: verify at http://paypal.com/login now").
  - vm_compute. reflexivity.
  - eexists. split; [left; reflexivity|reflexivity].
Defined.

(* ===================================================================== *)
(** * Analytics *)
(* ===================================================================== *)

Lemma count_detection_sum (d : detection) (p s : nat) :
  (fst (count_detection (p, s) d) + snd (count_detection (p, s) d) = S (p + s))%nat.
Proof.
  unfold count_detection.
  destruct (String.eqb (d_mode d) "hybrid");
    [destruct (is_pred (v_final_binary_pred (get (d_result d) empty_verdict)) 1)
    |destruct (is_pred (v_binary_pred (get (d_result d) empty_verdict)) 1)];
    simpl; lia.
Qed.

Lemma fold_count_sum (l : list detection) (acc : nat * nat) :
  (fst (fold_left count_detection l acc) + snd (fold_left count_detection l acc)
   = fst acc + snd acc + List.length l)%nat.
Proof.
  revert acc. induction l as [|d l IH]; intros [p s]; cbn [fold_left List.length].
  - simpl. lia.
  - rewrite IH. pose proof (count_detection_sum d p s).
    destruct (count_detection (p, s) d) as [p' s']. simpl in *. lia.
Qed.

Lemma filter_modes_bound (l : list detection) :
  (List.length (filter (mode_is "email") l) + List.length (filter (mode_is "url") l)
   + List.length (filter (mode_is "hybrid") l) <= List.length l)%nat.
Proof.
  induction l as [|d l IH]; [simpl; lia|].
  cbn [filter]. unfold mode_is in *.
  destruct (String.eqb_spec (d_mode d) "email") as [E1|E1].
  - rewrite E1. change (String.eqb "email" "url") with false.
    change (String.eqb "email" "hybrid") with false. cbn [List.length]. lia.
  - destruct (String.eqb_spec (d_mode d) "url") as [E2|E2].
    + rewrite E2. change (String.eqb "url" "hybrid") with false.
      cbn [List.length]. lia.
    + destruct (String.eqb (d_mode d) "hybrid"); cbn [List.length]; lia.
Qed.

(** X22. The analytics partition the selected detections: every one of them is
    counted either as phishing or as safe, the three per-mode counts add
    up to at most the total, and the selection is the whole collection or,
    for a non-empty user name, the detections of that user. *)
Theorem analytics_partition (collection : list detection) (username : option string) :
  let a := get_analytics_data collection username in
  total_detections a = List.length (detections a)
  /\ (phishing_count a + safe_count a = total_detections a)%nat
  /\ (email_detections a + url_detections a + hybrid_detections a
      <= total_detections a)%nat
  /\ (forall d, In d (detections a) <->
                In d collection
                /\ match username with
                   | Some (String c u) => d_username d = String c u
                   | _ => True
                   end).
Proof.
  cbv zeta. unfold get_analytics_data.
  set (ds := match username with
             | Some (String c u) =>
                 filter (fun d => String.eqb (d_username d) (String c u)) collection
             | _ => collection
             end).
  pose proof (fold_count_sum ds (0%nat, 0%nat)) as Hsum.
  destruct (fold_left count_detection ds (0%nat, 0%nat)) as [p s].
  cbn [total_detections phishing_count safe_count email_detections url_detections
       hybrid_detections detections].
  split; [reflexivity|]. split; [simpl in Hsum; lia|].
  split; [apply filter_modes_bound|].
  intro d. subst ds. destruct username as [[|c u]|].
  - tauto.
  - rewrite filter_In, String.eqb_eq. reflexivity.
  - tauto.
Qed.

Section AnalyticsOfClassifier.

Variable urlparse : string -> outcome parse_result.

(** X23. Without a loaded URL model a URL detection never counts as phishing:
    the verdict is Safe URL or Suspicious URL, and the analytics count
    both as safe. Saving the verdict of any URL raises the safe count by
    one and leaves the phishing count unchanged. *)
Theorem url_detection_counts_safe (g : globals) (collection : list detection)
    (now : Z) (username url : string) (r : url_result) :
  url_model g = None ->
  predict_url urlparse g url = Returns r ->
  let before := get_analytics_data collection None in
  let after :=
    get_analytics_data
      (save_detection collection now username "url" url (verdict_of_url r) (Some url))
      None in
  u_binary_pred r <> 1%Z
  /\ phishing_count after = phishing_count before
  /\ safe_count after = S (safe_count before)
  /\ total_detections after = S (total_detections before).
Proof.
  intros Hmodel Hr. cbv zeta.
  assert (Hb : u_binary_pred r <> 1%Z).
  { destruct (parse_domain_returns urlparse url) as (domain & Hd).
    rewrite (predict_url_cases urlparse g url domain Hd) in Hr.
    destruct (is_known_safe_domain g domain).
    - injection Hr as <-. discriminate.
    - unfold predict_url_from_features in Hr. rewrite Hmodel in Hr.
      injection Hr as <-. discriminate. }
  split; [exact Hb|].
  unfold get_analytics_data, save_detection.
  rewrite fold_left_app. cbn [fold_left].
  destruct (fold_left count_detection collection (0%nat, 0%nat)) as [p s].
  unfold count_detection. cbn [d_mode d_result get verdict_of_url v_binary_pred is_pred].
  change (String.eqb "url" "hybrid") with false. cbv iota.
  destruct (u_binary_pred r =? 1)%Z eqn:E; [apply Z.eqb_eq in E; congruence|].
  cbn [phishing_count safe_count total_detections].
  rewrite length_app. cbn [List.length].
  repeat split. lia.
Qed.

End AnalyticsOfClassifier.

Lemma url_detection_counts_safe_witness :
  safe_count
    (get_analytics_data
       (save_detection [] 0 "alice" "url" "http://evil.example/x"
          (verdict_of_url
             (UrlResult (Some "http://evil.example/x") "Suspicious URL" (-1) 0.5))
          (Some "http://evil.example/x"))
       None)
  = 1%nat.
Proof.
  apply (url_detection_counts_safe UrlLib.urlparse Demo.no_model [] 0 "alice"
           "http://evil.example/x"
           (UrlResult (Some "http://evil.example/x") "Suspicious URL" (-1) 0.5));
    reflexivity.
Defined.

(* ===================================================================== *)
(** * User accounts *)
(* ===================================================================== *)

Local Open Scope list_scope.

Lemma find_one_app (users : list user_doc) (doc : user_doc) (username : string) :
  find_one (users ++ [doc]) username
  = match find_one users username with
    | Some u => Some u
    | None => if String.eqb (ud_username doc) username then Some doc else None
    end.
Proof.
  unfold find_one. induction users as [|u users IH]; cbn [app find].
  - destruct (String.eqb (ud_username doc) username); reflexivity.
  - destruct (String.eqb (ud_username u) username); [reflexivity|exact IH].
Qed.

Lemma update_one_last (users : list user_doc) (doc : user_doc) (username : string)
    (set : user_doc -> user_doc) :
  find_one users username = None ->
  update_one (users ++ [doc]) username set
  = users ++ [if String.eqb (ud_username doc) username then set doc else doc].
Proof.
  unfold find_one. induction users as [|u users IH]; cbn [app find update_one]; intro H.
  - destruct (String.eqb (ud_username doc) username); reflexivity.
  - destruct (String.eqb (ud_username u) username); [discriminate|].
    rewrite (IH H). reflexivity.
Qed.

Lemma find_one_none (users : list user_doc) (username : string) :
  find_one users username = None -> ~ In username (map ud_username users).
Proof.
  unfold find_one. induction users as [|u users IH]; cbn [find map]; intros H Hin.
  - destruct Hin.
  - destruct (String.eqb (ud_username u) username) eqn:E; [discriminate|].
    apply String.eqb_neq in E. destruct Hin as [Hin|Hin]; [congruence|].
    exact (IH H Hin).
Qed.

Lemma nodup_snoc (names : list string) (name : string) :
  NoDup names -> ~ In name names -> NoDup (names ++ [name]).
Proof.
  intros Hnd Hnot. apply NoDup_app; [exact Hnd|constructor; [intros []|constructor]|].
  intros a Ha [<-|[]]. exact (Hnot Ha).
Qed.

Section AccountsFacts.

Variable generate_password_hash : nat -> string -> string.
Variable check_password_hash : string -> string -> bool.

(** A hash checks against the password it was made from, and against no
    other. *)
Hypothesis check_generated :
  forall salt password candidate,
    check_password_hash (generate_password_hash salt password) candidate
    = String.eqb password candidate.

(** The collection after [create_user] on a free user name. *)
Lemma create_user_free (users : list user_doc) (now : Z) (salt salt' : nat)
    (username password : string) :
  find_one users username = None ->
  create_user generate_password_hash users now salt salt' username password
  = (true,
     users ++ [if String.eqb username "admin"
               then UserDoc username (generate_password_hash salt' "ppnp@123") now true
               else UserDoc username (generate_password_hash salt password) now false]).
Proof.
  intro Hfree. unfold create_user. rewrite Hfree. unfold insert_one.
  destruct (String.eqb_spec username "admin") as [->|Hne]; [|reflexivity].
  rewrite find_one_app, Hfree. cbn [ud_username].
  change (String.eqb "admin" "admin") with true. cbv iota.
  rewrite (update_one_last _ _ _ _ Hfree). cbn [ud_username ud_created_at].
  change (String.eqb "admin" "admin") with true. reflexivity.
Qed.

Lemma verify_user_found (users : list user_doc) (now : Z) (salt : nat)
    (username password : string) (doc : user_doc) :
  find_one users username = Some doc ->
  verify_user generate_password_hash check_password_hash users now salt username password
  = (check_password_hash (ud_password_hash doc) password, users).
Proof.
  intro H. unfold verify_user. rewrite H. reflexivity.
Qed.

(** X24. Registration round trip. Creating a user whose name is free and is
    not [admin] succeeds and appends one document; from then on the user
    logs in with the chosen password and with no other, is no
    administrator, and the name cannot be registered again; logging in
    leaves the collection unchanged. *)
Theorem registration_round_trip (users : list user_doc) (now : Z) (salt salt' : nat)
    (username password : string) :
  find_one users username = None ->
  username <> "admin" ->
  exists doc,
    create_user generate_password_hash users now salt salt' username password
    = (true, users ++ [doc])
    /\ ud_username doc = username
    /\ (forall now2 salt2 candidate,
          verify_user generate_password_hash check_password_hash
            (users ++ [doc]) now2 salt2 username candidate
          = (String.eqb password candidate, users ++ [doc]))
    /\ is_admin (users ++ [doc]) username = Some false
    /\ (forall now2 salt2 salt3 password2,
          create_user generate_password_hash (users ++ [doc]) now2 salt2 salt3
            username password2
          = (false, users ++ [doc])).
Proof.
  intros Hfree Hne.
  pose proof (create_user_free users now salt salt' username password Hfree) as Hc.
  apply String.eqb_neq in Hne. rewrite Hne in Hc.
  set (doc := UserDoc username (generate_password_hash salt password) now false) in *.
  assert (Hfind : find_one (users ++ [doc]) username = Some doc).
  { rewrite find_one_app, Hfree. cbn [ud_username doc].
    rewrite String.eqb_refl. reflexivity. }
  exists doc. split; [exact Hc|]. split; [reflexivity|]. split; [|split].
  - intros now2 salt2 candidate.
    rewrite (verify_user_found _ _ _ _ _ _ Hfind). cbn [ud_password_hash doc].
    rewrite check_generated. reflexivity.
  - unfold is_admin. rewrite Hfind. reflexivity.
  - intros now2 salt2 salt3 password2. unfold create_user. rewrite Hfind. reflexivity.
Qed.

(** X25. Registering the name [admin] discards the chosen password: the stored
    hash is that of the built-in password, the account is an
    administrator, and the login accepts the built-in password only. *)
Theorem admin_registration (users : list user_doc) (now : Z) (salt salt' : nat)
    (password : string) :
  find_one users "admin" = None ->
  exists doc,
    create_user generate_password_hash users now salt salt' "admin" password
    = (true, users ++ [doc])
    /\ is_admin (users ++ [doc]) "admin" = Some true
    /\ (forall now2 salt2 candidate,
          verify_user generate_password_hash check_password_hash
            (users ++ [doc]) now2 salt2 "admin" candidate
          = (String.eqb "ppnp@123" candidate, users ++ [doc])).
Proof.
  intro Hfree.
  pose proof (create_user_free users now salt salt' "admin" password Hfree) as Hc.
  change (String.eqb "admin" "admin") with true in Hc. cbv iota in Hc.
  set (doc := UserDoc "admin" (generate_password_hash salt' "ppnp@123") now true) in *.
  assert (Hfind : find_one (users ++ [doc]) "admin" = Some doc).
  { rewrite find_one_app, Hfree. reflexivity. }
  exists doc. split; [exact Hc|]. split.
  - unfold is_admin. rewrite Hfind. reflexivity.
  - intros now2 salt2 candidate.
    rewrite (verify_user_found _ _ _ _ _ _ Hfind). cbn [ud_password_hash doc].
    rewrite check_generated. reflexivity.
Qed.

(** X26. Logging in as [admin] with the built-in password when no such account
    exists creates it on the fly, as an administrator, and succeeds; any
    other password fails and creates nothing. *)
Theorem default_admin_login (users : list user_doc) (now : Z) (salt : nat) :
  find_one users "admin" = None ->
  verify_user generate_password_hash check_password_hash users now salt
    "admin" "ppnp@123"
  = (true, users ++ [UserDoc "admin" (generate_password_hash salt "ppnp@123") now true])
  /\ (forall candidate,
        candidate <> "ppnp@123" ->
        verify_user generate_password_hash check_password_hash users now salt
          "admin" candidate
        = (false, users)).
Proof.
  intro Hfree. split.
  - unfold verify_user. rewrite Hfree.
    change (String.eqb "admin" "admin" && String.eqb "ppnp@123" "ppnp@123") with true.
    cbv iota. unfold create_admin_user. rewrite Hfree. unfold insert_one.
    rewrite find_one_app, Hfree. cbn [ud_username].
    change (String.eqb "admin" "admin") with true. cbv iota.
    cbn [ud_password_hash]. rewrite check_generated. reflexivity.
  - intros candidate Hne. unfold verify_user. rewrite Hfree.
    change (String.eqb "admin" "admin") with true.
    apply String.eqb_neq in Hne. rewrite Hne. reflexivity.
Qed.

(** X27. User names stay unique: neither registration nor login ever makes two
    documents share a user name. *)
Theorem usernames_stay_unique (users : list user_doc) (now : Z) (salt salt' : nat)
    (username password : string) :
  NoDup (map ud_username users) ->
  NoDup (map ud_username
           (snd (create_user generate_password_hash users now salt salt'
                   username password)))
  /\ NoDup (map ud_username
              (snd (verify_user generate_password_hash check_password_hash
                      users now salt username password))).
Proof.
  intro Hnd. split.
  - destruct (find_one users username) as [doc|] eqn:Hf.
    + unfold create_user. rewrite Hf. exact Hnd.
    + rewrite (create_user_free users now salt salt' username password Hf).
      cbn [snd]. rewrite map_app.
      replace (map ud_username
                 [if String.eqb username "admin"
                  then UserDoc username (generate_password_hash salt' "ppnp@123") now true
                  else UserDoc username (generate_password_hash salt password) now false])
        with [username] by (destruct (String.eqb username "admin"); reflexivity).
      apply nodup_snoc; [exact Hnd|apply find_one_none; exact Hf].
  - unfold verify_user.
    destruct (find_one users username) as [doc|] eqn:Hf; [exact Hnd|].
    destruct (String.eqb username "admin" && String.eqb password "ppnp@123") eqn:E.
    + apply andb_true_iff in E. destruct E as [E _]. apply String.eqb_eq in E. subst username.
      unfold create_admin_user. rewrite Hf. unfold insert_one.
      rewrite find_one_app, Hf. cbn [ud_username].
      change (String.eqb "admin" "admin") with true. cbv iota. cbn [snd].
      rewrite map_app. cbn [map ud_username].
      apply nodup_snoc; [exact Hnd|apply find_one_none; exact Hf].
    + exact Hnd.
Qed.

End AccountsFacts.

Lemma registration_round_trip_witness :
  exists doc,
    create_user (fun _ p => p) [] 0 0 1 "alice" "s3cret" = (true, [doc])
    /\ verify_user (fun _ p => p) String.eqb [doc] 5 2 "alice" "s3cret" = (true, [doc])
    /\ verify_user (fun _ p => p) String.eqb [doc] 5 2 "alice" "guess" = (false, [doc]).
Proof.
  destruct (registration_round_trip (fun _ p => p) String.eqb
              (fun _ _ _ => eq_refl) [] 0 0%nat 1%nat "alice" "s3cret" eq_refl)
    as (doc & Hc & _ & Hv & _).
  - discriminate.
  - exists doc. split; [exact Hc|]. split; [apply (Hv 5%Z 2%nat "s3cret")|].
    apply (Hv 5%Z 2%nat "guess").
Defined.

Lemma admin_registration_witness :
  exists doc,
    create_user (fun _ p => p) [] 0 0 1 "admin" "chosen" = (true, [doc])
    /\ verify_user (fun _ p => p) String.eqb [doc] 5 2 "admin" "chosen" = (false, [doc])
    /\ verify_user (fun _ p => p) String.eqb [doc] 5 2 "admin" "ppnp@123" = (true, [doc]).
Proof.
  destruct (admin_registration (fun _ p => p) String.eqb
              (fun _ _ _ => eq_refl) [] 0 0%nat 1%nat "chosen" eq_refl)
    as (doc & Hc & _ & Hv).
  exists doc. split; [exact Hc|]. split; [apply (Hv 5%Z 2%nat "chosen")|].
  apply (Hv 5%Z 2%nat "ppnp@123").
Defined.

Lemma default_admin_login_witness :
  verify_user (fun _ p => p) String.eqb [] 7 3 "admin" "ppnp@123"
  = (true, [UserDoc "admin" "ppnp@123" 7 true]).
Proof.
  apply (default_admin_login (fun _ p => p) String.eqb (fun _ _ _ => eq_refl)
           [] 7 3%nat eq_refl).
Defined.

Lemma usernames_stay_unique_witness :
  NoDup (map ud_username
           (snd (create_user (fun _ p => p) [UserDoc "bob" "pw" 1 false] 2 0 1
                   "alice" "s3cret"))).
Proof.
  apply (usernames_stay_unique (fun _ p => p) String.eqb
           [UserDoc "bob" "pw" 1 false] 2 0%nat 1%nat "alice" "s3cret").
  constructor; [intros []|constructor].
Defined.

Local Open Scope string_scope.

(* ===================================================================== *)
(** * Report: wrapped lines *)
(* ===================================================================== *)

Lemma in_firstn {A : Type} (n : nat) (l : list A) (x : A) :
  In x (firstn n l) -> In x l.
Proof.
  intro H. rewrite <- (firstn_skipn n l). apply in_or_app. left. exact H.
Qed.

Lemma all_chars_of_list (p : ascii -> bool) (l : list ascii) :
  UrlLib.all_chars p (string_of_list_ascii l) = forallb p l.
Proof.
  induction l as [|c l IH]; simpl; [reflexivity|]. rewrite IH. reflexivity.
Qed.

Lemma forallb_rev (p : ascii -> bool) (l : list ascii) :
  forallb p (rev l) = forallb p l.
Proof.
  induction l as [|c l IH]; simpl; [reflexivity|].
  rewrite forallb_app, IH. simpl. rewrite andb_true_r. apply andb_comm.
Qed.

(** The words of [split] are not empty and hold no white space. *)
Lemma split_words_clean (s : string) (word : list ascii) (w : string) :
  forallb (fun c => negb (Py.isspace c)) word = true ->
  In w (split_words word s) ->
  w <> EmptyString /\ UrlLib.all_chars (fun c => negb (Py.isspace c)) w = true.
Proof.
  revert word. induction s as [|c s IH]; intros word Hword Hin; cbn [split_words] in Hin.
  - destruct word as [|a word]; [destruct Hin|].
    destruct Hin as [<-|[]]. split.
    + intro H. apply (f_equal list_ascii_of_string) in H.
      rewrite list_ascii_of_string_of_list_ascii in H. simpl in H.
      destruct (rev word); discriminate H.
    + rewrite all_chars_of_list, forallb_rev. exact Hword.
  - destruct (Py.isspace c) eqn:Ec.
    + destruct word as [|a word]; [apply (IH [] eq_refl Hin)|].
      destruct Hin as [<-|Hin]; [|apply (IH [] eq_refl Hin)]. split.
      * intro H. apply (f_equal list_ascii_of_string) in H.
        rewrite list_ascii_of_string_of_list_ascii in H. simpl in H.
        destruct (rev word); discriminate H.
      * rewrite all_chars_of_list, forallb_rev. exact Hword.
    + apply (IH (c :: word)); [|exact Hin]. simpl. rewrite Ec, Hword. reflexivity.
Qed.

Lemma rstrip_app_space (x : string) : Py.rstrip (x ++ " ") = Py.rstrip x.
Proof.
  induction x as [|c x IH]; [reflexivity|].
  change (String c x ++ " ") with (String c (x ++ " ")).
  cbn [Py.rstrip]. rewrite IH. reflexivity.
Qed.

Lemma rstrip_clean (w : string) :
  UrlLib.all_chars (fun c => negb (Py.isspace c)) w = true -> Py.rstrip w = w.
Proof.
  induction w as [|c w IH]; [reflexivity|].
  cbn [UrlLib.all_chars Py.rstrip]. intro H. apply andb_true_iff in H.
  destruct H as [Hc Hw]. rewrite (IH Hw). apply negb_true_iff in Hc.
  destruct w; [rewrite Hc|]; reflexivity.
Qed.

Lemma rstrip_length (s : string) : (String.length (Py.rstrip s) <= String.length s)%nat.
Proof.
  induction s as [|c s IH]; cbn [Py.rstrip]; [simpl; lia|].
  destruct (Py.rstrip s) as [|c' r].
  - destruct (Py.isspace c); simpl; lia.
  - simpl in *. lia.
Qed.

(** Stripping a clean word followed by a space gives the word back. *)
Lemma strip_word_space (w : string) :
  w <> EmptyString ->
  UrlLib.all_chars (fun c => negb (Py.isspace c)) w = true ->
  Py.strip (w ++ " ") = w.
Proof.
  intros Hne Hw. unfold Py.strip.
  destruct w as [|c w]; [congruence|].
  change (String c w ++ " ") with (String c (w ++ " ")).
  cbn [UrlLib.all_chars] in Hw. apply andb_true_iff in Hw. destruct Hw as [Hc Hw].
  cbn [Py.lstrip]. apply negb_true_iff in Hc. rewrite Hc.
  change (String c (w ++ " ")) with (String c w ++ " ").
  rewrite rstrip_app_space. apply rstrip_clean.
  cbn [UrlLib.all_chars]. rewrite Hc, Hw. reflexivity.
Qed.

(** Stripping a text followed by a space leaves at most the text. *)
Lemma strip_space_length (x : string) :
  (String.length (Py.strip (x ++ " ")) <= String.length x)%nat.
Proof.
  unfold Py.strip. induction x as [|c x IH]; [simpl; lia|].
  change (String c x ++ " ") with (String c (x ++ " ")).
  cbn [Py.lstrip]. destruct (Py.isspace c).
  - simpl. lia.
  - change (String c (x ++ " ")) with (String c x ++ " ").
    rewrite rstrip_app_space. apply rstrip_length.
Qed.

Lemma wrap_words_lines (all_words rest lines : list string) (current_line : string)
    (P := fun line => (String.length line < 80)%nat \/ In line all_words) :
  (forall w, In w rest ->
     In w all_words /\ w <> EmptyString
     /\ UrlLib.all_chars (fun c => negb (Py.isspace c)) w = true) ->
  Forall P lines ->
  P (Py.strip current_line) ->
  Forall P (fst (wrap_words rest lines current_line))
  /\ P (Py.strip (snd (wrap_words rest lines current_line))).
Proof.
  revert lines current_line. induction rest as [|word rest IH];
    intros lines current_line Hrest Hlines Hcur; cbn [wrap_words].
  - split; assumption.
  - assert (Hrest' : forall w, In w rest ->
               In w all_words /\ w <> EmptyString
               /\ UrlLib.all_chars (fun c => negb (Py.isspace c)) w = true).
    { intros w Hw. apply Hrest. right. exact Hw. }
    destruct (Hrest word (or_introl eq_refl)) as (Hin & Hne & Hclean).
    destruct (String.length (current_line ++ word) <? 80)%nat eqn:E.
    + apply IH; [exact Hrest'|exact Hlines|].
      left. apply Nat.ltb_lt in E.
      replace (current_line ++ word ++ " ")%string
        with ((current_line ++ word) ++ " ")%string.
      * pose proof (strip_space_length (current_line ++ word)). lia.
      * clear. induction current_line as [|c s IHs]; simpl; [reflexivity|].
        rewrite IHs. reflexivity.
    + apply IH; [exact Hrest'| |].
      * apply Forall_app. split; [exact Hlines|]. constructor; [exact Hcur|constructor].
      * right. rewrite (strip_word_space word Hne Hclean). exact Hin.
Qed.

(** X28. The report draws at most ten lines, and each of them is shorter than
    80 characters unless it consists of a single word of the input (a word
    of 80 characters or more is not broken). The words are those of
    [split]: non-empty, without white space. *)
Theorem report_lines_bounded (input_text : string) :
  (List.length (report_lines input_text) <= 10)%nat
  /\ (forall line, In line (report_lines input_text) ->
        (String.length line < 80)%nat \/ In line (split input_text))
  /\ (forall w, In w (split input_text) ->
        w <> EmptyString
        /\ UrlLib.all_chars (fun c => negb (Py.isspace c)) w = true).
Proof.
  assert (Hclean : forall w, In w (split input_text) ->
            w <> EmptyString
            /\ UrlLib.all_chars (fun c => negb (Py.isspace c)) w = true).
  { intros w Hw. apply (split_words_clean input_text [] w eq_refl Hw). }
  split; [|split; [|exact Hclean]].
  - unfold report_lines. destruct (wrap_words _ _ _) as [lines cur].
    apply firstn_le_length.
  - intros line Hin. unfold report_lines in Hin.
    destruct (wrap_words_lines (split input_text) (split input_text) [] EmptyString)
      as [Hl Hc].
    + intros w Hw. split; [exact Hw|apply Hclean; exact Hw].
    + constructor.
    + left. simpl. lia.
    + destruct (wrap_words (split input_text) [] EmptyString) as [lines cur].
      cbn [fst snd] in Hl, Hc.
      assert (Hall : Forall (fun line => (String.length line < 80)%nat
                                         \/ In line (split input_text))
                       (match cur with
                        | EmptyString => lines
                        | _ => (lines ++ [Py.strip cur])%list
                        end)).
      { destruct cur; [exact Hl|].
        apply Forall_app. split; [exact Hl|]. constructor; [exact Hc|constructor]. }
      rewrite Forall_forall in Hall. apply Hall.
      apply (in_firstn _ _ _ Hin).
Qed.

Lemma report_lines_bounded_witness :
  (String.length "see you at three" < 80)%nat \/ In "see you at three" (split "  see you   at three ").
Proof.
  apply (proj1 (proj2 (report_lines_bounded "  see you   at three "))).
  vm_compute. left. reflexivity.
Defined.

(* ===================================================================== *)
(** * Whitelist and fusion: what decides *)
(* ===================================================================== *)

Section Deciders.

Variable urlparse : string -> outcome parse_result.

(** X14. Only the part of the network location before its first colon is
    compared with the whitelist: a URL whose network location is a trusted
    entry (one in normal form) followed by a colon is Safe URL whatever
    comes after the colon, be it a port or a password and another host,
    and whatever the model says. *)
Theorem trusted_prefix_is_safe (g : globals) (url entry rest : string)
    (parsed : parse_result) :
  urlparse url = Returns parsed ->
  netloc parsed = (entry ++ ":" ++ rest)%string ->
  In entry (SAFE_URLS g) ->
  normalize_domain_for_check entry = entry ->
  predict_url urlparse g url = Returns (UrlResult (Some url) "Safe URL" 0 0.98).
Proof.
  intros Hparse Hnet Hin Hnorm.
  assert (Hd : parse_domain_and_path urlparse url
               = Returns (Py.lower (entry ++ ":" ++ rest), "", "")).
  { unfold parse_domain_and_path. rewrite Hparse. cbn [bind try_except]. rewrite Hnet.
    destruct entry; reflexivity. }
  rewrite (predict_url_cases urlparse g url _ Hd).
  assert (Hsafe : is_known_safe_domain g (Py.lower (entry ++ ":" ++ rest)) = true).
  { unfold is_known_safe_domain. apply any_safe_entry_iff.
    exists entry. split; [exact Hin|]. left.
    assert (Hl : normalize_domain_for_check (Py.lower (entry ++ ":" ++ rest))
                 = normalize_domain_for_check (entry ++ ":" ++ rest)).
    { unfold normalize_domain_for_check. rewrite lower_split_head. reflexivity. }
    rewrite Hl. unfold normalize_domain_for_check at 1.
    rewrite split_head_app_colon. exact Hnorm. }
  rewrite Hsafe. reflexivity.
Qed.

(** X18. A rule match does not settle the fused verdict. With at least
    one URL in the text and none of them safe, the email branch counts for
    0.98 and the URLs decide: when every URL has a confidence of at most
    0.01 the verdict is Safe Content (final_binary_pred 0), and when every
    URL has a confidence of at least 0.03 it is Phishing Content
    (final_binary_pred 1). So a model that gives the URLs a probability
    near 0 turns a rule-matched email into Safe Content. *)
Theorem fused_after_rule_match (g : globals) (t : string) (r : hybrid_result) :
  hybrid_predict urlparse g t = Returns r ->
  check_email_unsafe_by_rules g t <> [] ->
  url_branch r <> [] ->
  (forall u, In u (url_branch r) -> u_label u <> "Safe URL") ->
  ((forall u, In u (url_branch r) -> (u_confidence u <= 0.01)%Q) ->
   final_binary_pred r = 0%Z /\ final_label r = "Safe Content")
  /\ ((forall u, In u (url_branch r) -> (0.03 <= u_confidence u)%Q) ->
      final_binary_pred r = 1%Z /\ final_label r = "Phishing Content").
Proof.
  intros Hr Hne Hurls Hno.
  destruct (hybrid_equation urlparse g t) as (er & urls & He & _ & Hh).
  assert (Hp : e_probability er = 0.98%Q).
  { destruct (check_email_unsafe_by_rules g t) as [|p ps]; [congruence|].
    destruct (extract_singleton g t) as (m & Hex & _).
    rewrite Hex in He. cbn in He. injection He as <-. reflexivity. }
  rewrite Hh in Hr. injection Hr as <-.
  destruct (existsb (fun u => String.eqb (u_label u) "Safe URL") urls) eqn:Ex.
  { exfalso. apply existsb_exists in Ex. destruct Ex as (u & Hin & Hl).
    apply String.eqb_eq in Hl. exact (Hno u Hin Hl). }
  cbn [url_branch] in Hurls |- *. cbv zeta.
  destruct urls as [|u0 urls]; [congruence|].
  cbn [final_binary_pred final_label]. rewrite Hp.
  set (up := mean (map u_confidence (u0 :: urls))).
  split; intro Hall.
  - assert (Hup : (up <= 0.01)%Q).
    { apply mean_at_most; [discriminate|].
      intros x Hx. apply in_map_iff in Hx. destruct Hx as (u & <- & Hu).
      apply Hall. exact Hu. }
    destruct (Py.geb ((0.98 + up) / 2) 0.5) eqn:E; [|split; reflexivity].
    apply geb_true in E. rewrite qdiv2 in E. exfalso. lra.
  - assert (Hup : (0.03 <= up)%Q).
    { apply mean_at_least; [discriminate|].
      intros x Hx. apply in_map_iff in Hx. destruct Hx as (u & <- & Hu).
      apply Hall. exact Hu. }
    destruct (Py.geb ((0.98 + up) / 2) 0.5) eqn:E; [split; reflexivity|].
    apply geb_false in E. rewrite qdiv2 in E. exfalso. lra.
Qed.

End Deciders.

Lemma trusted_prefix_is_safe_witness :
  predict_url UrlLib.urlparse Demo.sure_model "http://paypal.com:x@evil.example/login"
  = Returns (UrlResult (Some "http://paypal.com:x@evil.example/login") "Safe URL" 0 0.98).
Proof.
  apply (trusted_prefix_is_safe UrlLib.urlparse Demo.sure_model
           "http://paypal.com:x@evil.example/login" "paypal.com" "x@evil.example"
           (ParseResult "paypal.com:x@evil.example" "/login"));
    try reflexivity.
  left. reflexivity.
Defined.

Lemma fused_after_rule_match_witness :
  exists r,
    hybrid_predict UrlLib.urlparse
      (Globals Demo.phrases Demo.trusted (Some (fun _ => Returns 0%Q)))
      "please verify at http://evil.example/x" = Returns r
    /\ final_binary_pred r = 0%Z /\ final_label r = "Safe Content".
Proof.
  eexists. split; [vm_compute; reflexivity|].
  apply (fused_after_rule_match UrlLib.urlparse
           (Globals Demo.phrases Demo.trusted (Some (fun _ => Returns 0%Q)))
           "please verify at http://evil.example/x").
  - vm_compute. reflexivity.
  - vm_compute. discriminate.
  - discriminate.
  - intros u [<-|[]]. discriminate.
  - intros u [<-|[]]. vm_compute. discriminate.
Defined.
